(** * Telebirr receipt checker: extraction, resolution and verification

    A shallow embedding of [backend/telebirr.py] and [backend/bot.py].

    Text is modelled as a list of 8-bit characters, the UTF-8 encoding of the
    Python [str].  Case mapping and white space follow Python on the ASCII
    range; a byte above 127 is a caseless symbol that is not white space.
    The model is therefore exact for text whose code points beyond ASCII
    have no case mapping and are not white space, such as the Ethiopic
    script of the receipts; accented Latin letters and the no-break space
    are outside of it.

    The OCR backend, the HTTP endpoint and the Telegram API are oracles of an
    environment; the file system, the verification attempts, the replies
    and the log are the state threaded through the program.  The coroutines
    of the source run to completion here: [await] is a call. *)

From Stdlib Require Import ZArith List Ascii String Bool Lia.
From stdpp Require Import base list strings gmap.
Import ListNotations.

Local Open Scope Z_scope.

(** ** Python strings *)

Abbreviation str := (list ascii).

Definition py (s : string) : str := list_ascii_of_string s.

Definition in_range (lo hi : nat) (c : ascii) : bool :=
  let n := nat_of_ascii c in (lo <=? n)%nat && (n <=? hi)%nat.

(** [str.isspace] on one character: TAB..CR, FS..US and the space. *)
Definition isspace (c : ascii) : bool :=
  in_range 9 13 c || in_range 28 32 c.

Definition lower_char (c : ascii) : ascii :=
  if in_range 65 90 c then ascii_of_nat (nat_of_ascii c + 32) else c.

Definition upper_char (c : ascii) : ascii :=
  if in_range 97 122 c then ascii_of_nat (nat_of_ascii c - 32) else c.

(** [s.lower()] and [s.upper()] *)
Definition lower (s : str) : str := map lower_char s.
Definition upper (s : str) : str := map upper_char s.

(** [s.startswith(p)] *)
Fixpoint startswith (p s : str) : bool :=
  match p, s with
  | [], _ => true
  | _ :: _, [] => false
  | a :: p', b :: s' => Ascii.eqb a b && startswith p' s'
  end.

(** [sub in s] *)
Fixpoint contains (sub s : str) : bool :=
  startswith sub s ||
  match s with
  | [] => false
  | _ :: s' => contains sub s'
  end.

(** [s.find(sub)]: the lowest index where [sub] starts, or -1. *)
Fixpoint find_from (sub s : str) (i : Z) : Z :=
  if startswith sub s then i
  else match s with
       | [] => -1
       | _ :: s' => find_from sub s' (i + 1)
       end.

Definition find (sub s : str) : Z := find_from sub s 0.

(** [len(s)] *)
Definition len (s : str) : Z := Z.of_nat (length s).

(** [s[i:]], with Python's treatment of negative and too large indices. *)
Definition slice_from (s : str) (i : Z) : str :=
  let start := if i <? 0 then Z.max 0 (len s + i) else Z.min i (len s) in
  drop (Z.to_nat start) s.

(** [s.lstrip()], [s.rstrip()], [s.strip()] *)
Fixpoint lstrip (s : str) : str :=
  match s with
  | [] => []
  | c :: s' => if isspace c then lstrip s' else s
  end.

Definition rstrip (s : str) : str := rev (lstrip (rev s)).

Definition strip (s : str) : str := rstrip (lstrip s).

(** [s.replace(old, new)] for a one-character [old]. *)
Fixpoint replace (old : ascii) (new : str) (s : str) : str :=
  match s with
  | [] => []
  | c :: s' => (if Ascii.eqb c old then new else [c]) ++ replace old new s'
  end.

(** [s.split()]: the maximal runs of characters that are not white space. *)
Fixpoint split (s : str) : list str :=
  match s with
  | [] => []
  | c :: s' =>
      if isspace c then split s'
      else match s' with
           | [] => [[c]]
           | c' :: _ =>
               if isspace c' then [c] :: split s'
               else match split s' with
                    | t :: ts => (c :: t) :: ts
                    | [] => [[c]]
                    end
           end
  end.

(** [sep.join(l)] *)
Fixpoint join (sep : str) (l : list str) : str :=
  match l with
  | [] => []
  | [x] => x
  | x :: l' => x ++ sep ++ join sep l'
  end.

(** [tmpl.format(arg)] for a template whose only replacement field is one
    [{}]; other characters are copied. *)
Fixpoint format (tmpl arg : str) : str :=
  match tmpl with
  | [] => []
  | c :: t =>
      match t with
      | c' :: t' =>
          if Ascii.eqb c "{" && Ascii.eqb c' "}" then arg ++ t'
          else c :: format t arg
      | [] => [c]
      end
  end.

(** The line feed *)
Definition newline : ascii := ascii_of_nat 10.

(** Truth value of a string and of [None]-or-string. *)
Definition truthy (s : str) : bool :=
  match s with [] => false | _ => true end.

Definition truthy_opt (o : option str) : bool :=
  match o with Some s => truthy s | None => false end.

(** ** Data model *)

(** The OCR document: pages, blocks, lines, words. *)
Record word := { value : str }.
Record line := { words : list word }.
Record block := { lines : list line }.
Record page := { blocks : list block }.
Record document := { pages : list page }.

(** An HTTP response as the program reads it. *)
Record response := { status_code : Z; text : str }.

(** The exceptions the program meets.  [RequestException] is
    [requests.exceptions.RequestException] and its subclasses;
    [TelegramError] is raised by the Telegram client. *)
Inductive exn :=
  | IndexError
  | ValueError
  | RequestException
  | TelegramError
  | OSError
  | RuntimeError.

Inductive result (A : Type) :=
  | Ok (a : A)
  | Err (e : exn).
Arguments Ok {A} a.
Arguments Err {A} e.

(** The log statements of the two files, by call site. *)
Inductive log_entry :=
  | LogExtractError (e : exn)
  | LogOcrStart (image_path : str)
  | LogNoPages
  | LogEmptyText
  | LogExtractedText (full_text : str)
  | LogOcrError (image_path : str) (e : exn)
  | LogHttpError (e : exn).

Inductive level := INFO | WARNING | ERROR.

Definition level_of (l : log_entry) : level :=
  match l with
  | LogExtractError _ | LogNoPages | LogEmptyText => WARNING
  | LogOcrStart _ | LogExtractedText _ => INFO
  | LogOcrError _ _ | LogHttpError _ => ERROR
  end.

(** The replies of [handle_photo], by call site. *)
Inductive reply :=
  | MsgProcessing
  | MsgValid
  | MsgViewReceipt (url : str)
  | MsgValidOto0
  | MsgValid0toO
  | MsgNotVerified
  | MsgTransportError
  | MsgNoTransactionId.

Definition reply_text_of (m : reply) : str :=
  match m with
  | MsgProcessing => py "Processing your receipt..."
  | MsgValid => py "✅ Congratulations! The receipt is valid. 🎉"
  | MsgViewReceipt url => py "You can view the full receipt here: " ++ url
  | MsgValidOto0 =>
      py "✅ Congratulations! The receipt is valid after correcting an OCR error (O to 0). 🎉"
  | MsgValid0toO =>
      py "✅ Congratulations! The receipt is valid after correcting an OCR error (0 to O). 🎉"
  | MsgNotVerified =>
      py "❌ The receipt could not be verified. It appears to be invalid or there was an OCR error."
  | MsgTransportError =>
      py "An error occurred while trying to verify the receipt. Please try again later."
  | MsgNoTransactionId =>
      py "Could not find a valid transaction ID in the receipt. Please try again with a clearer image."
  end.

(** One verification attempt: the URL requested and what came back. *)
Definition attempt : Type := str * result response.

(** The state: the files on disk, the verification attempts made, the
    replies the handler asked to send, and the log, each in order of
    occurrence. *)
Record world := {
  files : gset str;
  requests : list attempt;
  replies : list reply;
  log : list log_entry
}.

(** The environment.  An oracle sees what was done before it is called.
    The image reader, the OCR model and the HTTP transport may raise any
    exception; a call of the Telegram client succeeds or raises
    [TelegramError]. *)
Record env := {
  from_images : str -> result str;
  ocr_predictor : str -> result (option document);
  http : list attempt -> str -> result response;
  tg_get_file : option str;
  tg_download : str -> bool;
  tg_send : list reply -> reply -> bool
}.

(** ** Statements: state, exceptions and early [return] *)

Inductive ctl (R A : Type) :=
  | Normal (a : A)
  | Return (r : R)
  | Raise (e : exn).
Arguments Normal {R A} a.
Arguments Return {R A} r.
Arguments Raise {R A} e.

Definition M (R A : Type) : Type := world -> ctl R A * world.

(** A function of the program: its returned value or the exception that
    escapes it, and the state it leaves. *)
Definition F (R : Type) : Type := world -> result R * world.

Definition ret {R A} (a : A) : M R A := fun w => (Normal a, w).

Definition bind {R A B} (m : M R A) (k : A -> M R B) : M R B :=
  fun w =>
    match m w with
    | (Normal a, w') => k a w'
    | (Return r, w') => (Return r, w')
    | (Raise e, w') => (Raise e, w')
    end.

Declare Scope py_scope.
Delimit Scope py_scope with py.
Notation "x <- m ;; k" := (bind m (fun x => k))
  (at level 100, m at next level, k at level 200, right associativity) : py_scope.
Notation "m ;; k" := (bind m (fun _ => k))
  (at level 100, k at level 200, right associativity) : py_scope.
Local Open Scope py_scope.

(** [return r] *)
Definition return_ {R A} (r : R) : M R A := fun w => (Return r, w).

(** [raise e] *)
Definition raise {R A} (e : exn) : M R A := fun w => (Raise e, w).

(** [if b: body] *)
Definition when {R} (b : bool) (body : M R unit) : M R unit :=
  if b then body else ret tt.

(** [try: body / except <catches> as e: handler e] *)
Definition try_except {R A} (body : M R A) (catches : exn -> bool)
    (handler : exn -> M R A) : M R A :=
  fun w =>
    match body w with
    | (Raise e, w') => if catches e then handler e w' else (Raise e, w')
    | r => r
    end.

(** [def f(...): body], for a body whose every path ends in [return]. *)
Definition def {R} (body : M R Empty_set) : F R :=
  fun w =>
    match body w with
    | (Normal a, _) => match a with end
    | (Return r, w') => (Ok r, w')
    | (Raise e, w') => (Err e, w')
    end.

(** A call of a function of the program. *)
Definition call {R A} (f : F A) : M R A :=
  fun w =>
    match f w with
    | (Ok a, w') => (Normal a, w')
    | (Err e, w') => (Raise e, w')
    end.

(** [l[i]] *)
Definition getitem {R A} (l : list A) (i : Z) : M R A :=
  let n := Z.of_nat (length l) in
  let j := if i <? 0 then n + i else i in
  if (j <? 0) || (n <=? j) then raise IndexError
  else match nth_error l (Z.to_nat j) with
       | Some a => ret a
       | None => raise IndexError
       end.

(** [logger.info], [logger.warning], [logger.error] *)
Definition logger {R} (l : log_entry) : M R unit :=
  fun w =>
    (Normal tt,
     {| files := files w; requests := requests w; replies := replies w;
        log := log w ++ [l] |}).

Definition is_IndexError_or_ValueError (e : exn) : bool :=
  match e with IndexError | ValueError => true | _ => false end.

Definition is_RequestException (e : exn) : bool :=
  match e with RequestException => true | _ => false end.

Definition is_Exception (e : exn) : bool := true.

(** [os.path.exists(p)] and [os.remove(p)] *)
Definition path_exists {R} (p : str) : M R bool :=
  fun w => (Normal (bool_decide (p ∈ files w)), w).

Definition os_remove {R} (p : str) : M R unit :=
  fun w =>
    if bool_decide (p ∈ files w) then
      (Normal tt,
       {| files := files w ∖ {[p]}; requests := requests w;
          replies := replies w; log := log w |})
    else (Raise OSError, w).

(** [os.makedirs(d, exist_ok=True)]: directories are not part of the state. *)
Definition os_makedirs {R} (d : str) : M R unit := ret tt.

Section Environment.

Variable E : env.

(** [requests.get(url, timeout=10)]: the endpoint answers or the transport
    raises (a timeout is one of its exceptions); the attempt is recorded. *)
Definition requests_get {R} (url : str) : M R response :=
  fun w =>
    let answer := http E (requests w) url in
    let w' := {| files := files w;
                 requests := requests w ++ [(url, answer)];
                 replies := replies w; log := log w |} in
    match answer with
    | Ok r => (Normal r, w')
    | Err e => (Raise e, w')
    end.

(** [DocumentFile.from_images([image_path])] and [ocr_model(doc)] *)
Definition DocumentFile_from_images {R} (image_path : str) : M R str :=
  fun w =>
    match from_images E image_path with
    | Ok d => (Normal d, w)
    | Err e => (Raise e, w)
    end.

Definition run_ocr {R} (doc : str) : M R (option document) :=
  fun w =>
    match ocr_predictor E doc with
    | Ok d => (Normal d, w)
    | Err e => (Raise e, w)
    end.

(** [update.message.photo[-1].get_file()], yielding the file id *)
Definition get_file {R} : M R str :=
  fun w =>
    match tg_get_file E with
    | Some file_id => (Normal file_id, w)
    | None => (Raise TelegramError, w)
    end.

(** [photo_file.download_to_drive(file_path)] *)
Definition download_to_drive {R} (file_path : str) : M R unit :=
  fun w =>
    if tg_download E file_path then
      (Normal tt,
       {| files := files w ∪ {[file_path]}; requests := requests w;
          replies := replies w; log := log w |})
    else (Raise TelegramError, w).

(** [update.message.reply_text(m)]: the call is recorded, then the Telegram
    client delivers or raises. *)
Definition reply_text {R} (m : reply) : M R unit :=
  fun w =>
    let w' := {| files := files w; requests := requests w;
                 replies := replies w ++ [m]; log := log w |} in
    if tg_send E (replies w) m then (Normal tt, w')
    else (Raise TelegramError, w').

End Environment.

(** ** backend/telebirr.py *)

Module Telebirr.

Definition TELEBIRR_VERIFICATION_URL : str :=
  py "https://transactioninfo.ethiotelecom.et/receipt/{}".

Definition SUCCESS_STRING : str :=
  py "የቴሌብር ክፍያ መረጃ/telebirr Transaction information".

Definition label : str := py "Transaction Number".

Definition extract_transaction_info (text_data : str) : F (option str) :=
  def (
    let text_data_lower := lower text_data in
    when (contains (lower label) text_data_lower) (
      try_except (
        let start_index := find (lower label) text_data_lower in
        let end_of_label := start_index + len label in
        let remainder :=
          replace ":" [] (strip (slice_from text_data end_of_label)) in
        when (truthy remainder) (
          first <- getitem (split remainder) 0 ;;
          let tx_id := upper first in
          return_ (Some tx_id)))
        is_IndexError_or_ValueError
        (fun e => logger (LogExtractError e))) ;;
    return_ None).

(** The three nested loops that build [full_text]. *)
Definition full_text_of (result : document) : str :=
  fold_left (fun full_text page =>
    fold_left (fun full_text block =>
      fold_left (fun full_text line =>
        full_text ++ (join (py " ") (map value (words line)) ++ [newline]))
        (lines block) full_text)
      (blocks page) full_text)
    (pages result) [].

Section WithEnv.

Variable E : env.

Definition process_image_for_txid (image_path : str)
    : F (option str * option str) :=
  def (
    try_except (
      logger (LogOcrStart image_path) ;;
      doc <- DocumentFile_from_images E image_path ;;
      result <- run_ocr E doc ;;
      match result with
      | None => logger LogNoPages ;; return_ (None, None)
      | Some result =>
          when (match pages result with [] => true | _ => false end) (
            logger LogNoPages ;; return_ (None, None)) ;;
          let full_text := full_text_of result in
          when (negb (truthy (strip full_text))) (
            logger LogEmptyText ;; return_ (None, None)) ;;
          logger (LogExtractedText full_text) ;;
          tx_id <- call (extract_transaction_info full_text) ;;
          return_ (tx_id, Some TELEBIRR_VERIFICATION_URL)
      end)
      is_Exception
      (fun e => logger (LogOcrError image_path e) ;; return_ (None, None))).

Definition verify_telebirr_receipt (tx_id verify_url : str) : F bool :=
  def (
    let full_url := format verify_url tx_id in
    try_except (
      response <- requests_get E full_url ;;
      when ((status_code response =? 200)
            && contains SUCCESS_STRING (text response)) (
        return_ true) ;;
      when (contains (py "O") tx_id) (
        let normalized_tx_id := replace "O" (py "0") tx_id in
        let normalized_url := format verify_url normalized_tx_id in
        normalized_response <- requests_get E normalized_url ;;
        when ((status_code normalized_response =? 200)
              && contains SUCCESS_STRING (text normalized_response)) (
          return_ true)) ;;
      when (contains (py "0") tx_id) (
        let normalized_tx_id := replace "0" (py "O") tx_id in
        let normalized_url := format verify_url normalized_tx_id in
        normalized_response <- requests_get E normalized_url ;;
        when ((status_code normalized_response =? 200)
              && contains SUCCESS_STRING (text normalized_response)) (
          return_ true)) ;;
      return_ false)
      is_RequestException
      (fun e => logger (LogHttpError e) ;; return_ false)).

End WithEnv.

End Telebirr.

(** ** backend/bot.py *)

Module Bot.

Definition label : str := py "Transaction Number".
Definition verify_url : str :=
  py "https://transactioninfo.ethiotelecom.et/receipt/{}".
Definition bank_name : str := py "Telebirr".
Definition success_string : str :=
  py "የቴሌብር ክፍያ መረጃ/telebirr Transaction information".

Definition extract_transaction_info (text_data : str)
    : F (option str * option str * option str) :=
  def (
    let text_data_lower := lower text_data in
    when (contains (lower label) text_data_lower) (
      try_except (
        let start_index := find (lower label) text_data_lower in
        let end_of_label := start_index + len label in
        let remainder :=
          replace ":" [] (strip (slice_from text_data end_of_label)) in
        when (truthy remainder) (
          first <- getitem (split remainder) 0 ;;
          let tx_id := upper first in
          return_ (Some bank_name, Some tx_id, Some verify_url)))
        is_IndexError_or_ValueError
        (fun e => logger (LogExtractError e))) ;;
    return_ (None, None, None)).

Definition full_text_of (result : document) : str :=
  fold_left (fun full_text page =>
    fold_left (fun full_text block =>
      fold_left (fun full_text line =>
        full_text ++ (join (py " ") (map value (words line)) ++ [newline]))
        (lines block) full_text)
      (blocks page) full_text)
    (pages result) [].

Section WithEnv.

Variable E : env.

Definition process_image_for_txid (image_path : str)
    : F (option str * option str * option str) :=
  def (
    try_except (
      logger (LogOcrStart image_path) ;;
      doc <- DocumentFile_from_images E image_path ;;
      result <- run_ocr E doc ;;
      match result with
      | None => logger LogNoPages ;; return_ (None, None, None)
      | Some result =>
          when (match pages result with [] => true | _ => false end) (
            logger LogNoPages ;; return_ (None, None, None)) ;;
          let full_text := full_text_of result in
          when (negb (truthy (strip full_text))) (
            logger LogEmptyText ;; return_ (None, None, None)) ;;
          logger (LogExtractedText full_text) ;;
          r <- call (extract_transaction_info full_text) ;;
          let '(bank_name, tx_id, verify_url) := r in
          return_ (bank_name, tx_id, verify_url)
      end)
      is_Exception
      (fun e =>
         logger (LogOcrError image_path e) ;; return_ (None, None, None))).

Definition handle_photo : F unit :=
  def (
    photo_file <- get_file E ;;
    let file_path := py "downloads/" ++ photo_file ++ py ".jpg" in
    os_makedirs (py "downloads") ;;
    download_to_drive E file_path ;;
    reply_text E MsgProcessing ;;
    r <- call (process_image_for_txid file_path) ;;
    let '(bank_name, tx_id, verify_url) := r in
    (if truthy_opt tx_id && truthy_opt verify_url then
       let tx_id := default [] tx_id in
       let verify_url := default [] verify_url in
       let full_url := format verify_url tx_id in
       try_except (
         response <- requests_get E full_url ;;
         if (status_code response =? 200)
            && contains success_string (text response)
         then
           reply_text E MsgValid ;;
           reply_text E (MsgViewReceipt full_url)
         else
           when (contains (py "O") tx_id) (
             let normalized_tx_id := replace "O" (py "0") tx_id in
             let normalized_url := format verify_url normalized_tx_id in
             normalized_response <- requests_get E normalized_url ;;
             when ((status_code normalized_response =? 200)
                   && contains success_string (text normalized_response)) (
               reply_text E MsgValidOto0 ;;
               reply_text E (MsgViewReceipt normalized_url) ;;
               b <- path_exists file_path ;;
               when b (os_remove file_path) ;;
               return_ tt)) ;;
           when (contains (py "0") tx_id) (
             let normalized_tx_id := replace "0" (py "O") tx_id in
             let normalized_url := format verify_url normalized_tx_id in
             normalized_response <- requests_get E normalized_url ;;
             when ((status_code normalized_response =? 200)
                   && contains success_string (text normalized_response)) (
               reply_text E MsgValid0toO ;;
               reply_text E (MsgViewReceipt normalized_url) ;;
               b <- path_exists file_path ;;
               when b (os_remove file_path) ;;
               return_ tt)) ;;
           reply_text E MsgNotVerified)
         is_RequestException
         (fun e =>
            logger (LogHttpError e) ;; reply_text E MsgTransportError)
     else reply_text E MsgNoTransactionId) ;;
    b <- path_exists file_path ;;
    when b (os_remove file_path) ;;
    return_ tt).

End WithEnv.

End Bot.

(** ** The specification's reading of the operations *)

(** The state after one more log entry. *)
Definition logged (l : log_entry) (w : world) : world :=
  {| files := files w; requests := requests w; replies := replies w;
     log := log w ++ [l] |}.

(** Label lookup ignoring case, on the text as given: the label matches at
    the head of [s] when each of its characters equals the one of [s] up to
    case. *)
Definition eq_ignore_case (a b : ascii) : bool :=
  Ascii.eqb (lower_char a) (lower_char b).

Fixpoint starts_ignore_case (p s : str) : bool :=
  match p, s with
  | [], _ => true
  | _ :: _, [] => false
  | a :: p', b :: s' => eq_ignore_case a b && starts_ignore_case p' s'
  end.

(** The substring that follows the end of the first place where the label
    matches, if there is one. *)
Fixpoint after_label (lbl text : str) : option str :=
  if starts_ignore_case lbl text then Some (drop (length lbl) text)
  else match text with
       | [] => None
       | _ :: t => after_label lbl t
       end.

(** The label matches, up to case, the part [lab] of [text = pre ++ lab ++ post]. *)
Definition label_at (lbl text pre lab post : str) : Prop :=
  text = pre ++ lab ++ post /\ lower lab = lower lbl.


(** Strip, remove the colons, split on white space: the tokens that follow
    the label. *)
Definition tokens_after (rest : str) : list str :=
  split (replace ":" [] (strip rest)).

(** [resolve(text)]: the first token after the label, upper-cased, or
    not-found. *)
Definition resolve (text : str) : option str :=
  match after_label (py "Transaction Number") text with
  | None => None
  | Some rest =>
      match tokens_after rest with
      | [] => None
      | tok :: _ => Some (upper tok)
      end
  end.

(** The text after the label is not empty once stripped and rid of its
    colons, yet holds no token. *)
Definition only_blank_left (text : str) : bool :=
  match after_label (py "Transaction Number") text with
  | None => false
  | Some rest =>
      truthy (replace ":" [] (strip rest))
      && match tokens_after rest with [] => true | _ => false end
  end.

(** Linearization: each line is its words joined by single spaces and a
    line feed; lines, blocks and pages follow in document order. *)
Definition line_text (l : line) : str :=
  join (py " ") (map value (words l)) ++ [newline].

Definition linearize (d : document) : str :=
  concat (map (fun p =>
    concat (map (fun b =>
      concat (map line_text (lines b))) (blocks p))) (pages d)).

(** What the OCR backend does on an image path: reading the image, then
    recognition. *)
Definition ocr_outcome (E : env) (image_path : str)
    : result (option document) :=
  match from_images E image_path with
  | Err e => Err e
  | Ok doc => ocr_predictor E doc
  end.

(** OCR failure: the backend raised, gave no result or no pages, or the
    extracted text is all white space. *)
Definition ocr_failed (E : env) (image_path : str) : bool :=
  match ocr_outcome E image_path with
  | Err _ => true
  | Ok None => true
  | Ok (Some d) =>
      match pages d with
      | [] => true
      | _ => forallb isspace (linearize d)
      end
  end.

(** The state the extractor leaves when it gives up. *)
Definition gave_up (image_path : str) (l : log_entry) (w : world) : world :=
  logged l (logged (LogOcrStart image_path) w).

Definition extractor_log (E : env) (image_path : str) (w : world) : world :=
  match ocr_outcome E image_path with
  | Err e => gave_up image_path (LogOcrError image_path e) w
  | Ok None => gave_up image_path LogNoPages w
  | Ok (Some d) =>
      match pages d with
      | [] => gave_up image_path LogNoPages w
      | _ =>
          if truthy (strip (linearize d)) then
            let w' := gave_up image_path (LogExtractedText (linearize d)) w in
            if only_blank_left (linearize d)
            then logged (LogExtractError IndexError) w' else w'
          else gave_up image_path LogEmptyText w
      end
  end.

(** The text the extractor hands to the resolver, if it gets that far. *)
Definition extracted_text (E : env) (image_path : str) : option str :=
  match ocr_outcome E image_path with
  | Ok (Some d) =>
      match pages d with
      | [] => None
      | _ => if truthy (strip (linearize d)) then Some (linearize d) else None
      end
  | _ => None
  end.

(** The marker check on one response. *)
Definition success (r : response) : bool :=
  (status_code r =? 200) && contains Telebirr.SUCCESS_STRING (text r).

(** The candidate identifiers, in the order of the attempts. *)
Definition candidates (raw : str) : list str :=
  raw
  :: (if contains (py "O") raw then [replace "O" (py "0") raw] else [])
  ++ (if contains (py "0") raw then [replace "0" (py "O") raw] else []).

(** The attempts of a loop over the URLs that stops after the first success
    and after the first exception, given the attempts made before. *)
Fixpoint attempts (E : env) (before : list attempt) (urls : list str)
    : list attempt :=
  match urls with
  | [] => []
  | u :: us =>
      let answer := http E before u in
      (u, answer)
      :: match answer with
         | Ok r =>
             if success r then []
             else attempts E (before ++ [(u, answer)]) us
         | Err _ => []
         end
  end.

(** The result of that loop: verified, not verified, or the exception. *)
Definition verdict (l : list attempt) : result bool :=
  match last l with
  | Some (_, Ok r) => Ok (success r)
  | Some (_, Err e) => Err e
  | None => Ok false
  end.


(** An answer that lets the loop go on: a response without the marker or
    with another status. *)
Definition clean_failure (a : result response) : bool :=
  match a with
  | Ok r => negb (success r)
  | Err _ => false
  end.

(** The attempts [l] go through [urls] in order and stop at the first success:
    the URLs attempted are a prefix of [urls]; each answer is the endpoint's,
    given what was attempted before; an attempt that is followed by another
    one failed cleanly; after a clean failure of the last attempt no URL is
    left; and the first URL is always attempted. *)
Definition stops_at_first_success (E : env) (before : list attempt)
    (urls : list str) (l : list attempt) : Prop :=
  (exists rest, urls = map fst l ++ rest)
  /\ (forall l1 u a l2,
        l = l1 ++ (u, a) :: l2 ->
        a = http E (before ++ l1) u
        /\ (l2 <> [] -> exists r, a = Ok r /\ success r = false))
  /\ (forall u r,
        last l = Some (u, Ok r) -> success r = false -> map fst l = urls)
  /\ (urls <> [] -> l <> []).

(** What a function that catches [RequestException] and answers [False]
    makes of a verdict. *)
Definition caught (v : result bool) : result bool :=
  match v with
  | Err e => if is_RequestException e then Ok false else Err e
  | Ok b => Ok b
  end.

(** The log entry of the [except] clause, if the loop ended in it. *)
Definition transport_log (l : list attempt) : list log_entry :=
  match last l with
  | Some (_, Err e) => if is_RequestException e then [LogHttpError e] else []
  | _ => []
  end.

(** The state after the attempts [l] and the log entries [es]. *)
Definition after_attempts (l : list attempt) (es : list log_entry)
    (w : world) : world :=
  {| files := files w; requests := requests w ++ l; replies := replies w;
     log := log w ++ es |}.

(** The replies [ms] sent in turn, until the Telegram client raises; the
    boolean tells whether all were delivered. *)
Fixpoint send_all (E : env) (ms : list reply) (w : world) : bool * world :=
  match ms with
  | [] => (true, w)
  | m :: ms' =>
      let w' := {| files := files w; requests := requests w;
                   replies := replies w ++ [m]; log := log w |} in
      if tg_send E (replies w) m then send_all E ms' w' else (false, w')
  end.

(** The message that announces the success of each candidate. *)
Definition announcements (raw : str) : list reply :=
  MsgValid
  :: (if contains (py "O") raw then [MsgValidOto0] else [])
  ++ (if contains (py "0") raw then [MsgValid0toO] else []).

(** The replies that conclude the attempts [l] on the candidates of [raw]. *)
Definition conclusion (raw : str) (l : list attempt) : list reply :=
  match last l with
  | Some (u, Ok r) =>
      if success r
      then [nth (length l - 1) (announcements raw) MsgValid; MsgViewReceipt u]
      else [MsgNotVerified]
  | Some (_, Err e) => if is_RequestException e then [MsgTransportError] else []
  | None => []
  end.

(** Send the replies, then delete the image and return; an exception of the
    Telegram client escapes before the deletion. *)
Definition finish (E : env) (file_path : str) (ms : list reply) (w : world)
    : result unit * world :=
  match send_all E ms w with
  | (false, w') => (Err TelegramError, w')
  | (true, w') =>
      (Ok tt,
       {| files := files w' ∖ {[file_path]}; requests := requests w';
          replies := replies w'; log := log w' |})
  end.

(** The identifier the extractor of [bot.py] finds on an image. *)
Definition identifier_of (E : env) (image_path : str) : option str :=
  match extracted_text E image_path with
  | Some full_text => resolve full_text
  | None => None
  end.

(** The photo handler, step by step: download, acknowledge, extract, attempt
    the candidates, reply, delete. *)
Definition handle_photo_steps (E : env) (w : world) : result unit * world :=
  match tg_get_file E with
  | None => (Err TelegramError, w)
  | Some photo_file =>
      let file_path := py "downloads/" ++ photo_file ++ py ".jpg" in
      if negb (tg_download E file_path) then (Err TelegramError, w)
      else
          let w1 := {| files := files w ∪ {[file_path]};
                       requests := requests w; replies := replies w;
                       log := log w |} in
          match send_all E [MsgProcessing] w1 with
          | (false, w2) => (Err TelegramError, w2)
          | (true, w2) =>
              let w3 := extractor_log E file_path w2 in
              match identifier_of E file_path with
              | None => finish E file_path [MsgNoTransactionId] w3
              | Some tx_id =>
                  let l := attempts E (requests w3)
                             (map (format Bot.verify_url) (candidates tx_id)) in
                  let w4 := after_attempts l (transport_log l) w3 in
                  match caught (verdict l) with
                  | Err e => (Err e, w4)
                  | Ok _ => finish E file_path (conclusion tx_id l) w4
                  end
              end
          end
  end.

(** The identifier the photo handler goes on to verify: the download and the
    acknowledgement went through and the extractor found one. *)
Definition identifier_to_verify (E : env) (w : world) : option str :=
  match tg_get_file E with
  | Some photo_file =>
      let file_path := py "downloads/" ++ photo_file ++ py ".jpg" in
      if tg_download E file_path && tg_send E (replies w) MsgProcessing
      then identifier_of E file_path
      else None
  | None => None
  end.

(** The attempts on an identifier that holds both an O and a 0: the raw
    identifier; after its clean failure the O-to-0 variant; after the clean
    failure of that one the 0-to-O variant of the raw identifier. *)
Definition up_to_three_attempts (E : env) (before : list attempt)
    (verify_url tx_id : str) : list attempt :=
  let u1 := format verify_url tx_id in
  let u2 := format verify_url (replace "O" (py "0") tx_id) in
  let u3 := format verify_url (replace "0" (py "O") tx_id) in
  let a1 := http E before u1 in
  let a2 := http E (before ++ [(u1, a1)]) u2 in
  let a3 := http E (before ++ [(u1, a1); (u2, a2)]) u3 in
  if clean_failure a1 then
    if clean_failure a2 then [(u1, a1); (u2, a2); (u3, a3)]
    else [(u1, a1); (u2, a2)]
  else [(u1, a1)].

(** ** Concrete situations *)

(** Nothing on disk, nothing requested, sent or logged yet. *)
Definition fresh : world :=
  {| files := ∅; requests := []; replies := []; log := [] |}.

(** An environment whose image reader and Telegram file service work, with
    the given OCR result, endpoint and Telegram sender. *)
Definition mock (o : result (option document))
    (h : list attempt -> str -> result response)
    (send : list reply -> reply -> bool) : env :=
  {| from_images := fun p => Ok p;
     ocr_predictor := fun _ => o;
     http := h;
     tg_get_file := Some (py "f1");
     tg_download := fun _ => true;
     tg_send := send |}.

Definition not_found : response := {| status_code := 404; text := [] |}.

Definition found : response :=
  {| status_code := 200;
     text := py "<h1>" ++ Telebirr.SUCCESS_STRING ++ py "</h1>" |}.

Definition delivers : list reply -> reply -> bool := fun _ _ => true.

(** One page, one block, the given lines of words. *)
Definition one_block (ls : list (list string)) : document :=
  {| pages :=
       [{| blocks :=
             [{| lines :=
                   map (fun l =>
                     {| words := map (fun s => {| value := py s |}) l |}) ls
               |}] |}] |}.

Definition receipt : document :=
  one_block [["Transaction"; "Number:"]; ["ab01o3"]]%string.

(** A Telegram client that fails to deliver the confirmation of a valid
    receipt and delivers everything else. *)
Definition drops_confirmation : list reply -> reply -> bool :=
  fun _ m => match m with MsgValid => false | _ => true end.

(** Endpoints: one that rejects every identifier, one whose transport always
    fails, one that accepts every identifier. *)
Definition rejecting : list attempt -> str -> result response :=
  fun _ _ => Ok not_found.

Definition unreachable : list attempt -> str -> result response :=
  fun _ _ => Err RequestException.

Definition accepting : list attempt -> str -> result response :=
  fun _ _ => Ok found.

Definition receipt_url (tx_id : string) : str :=
  py "https://transactioninfo.ethiotelecom.et/receipt/" ++ py tx_id.

(** An endpoint that rejects the first request and accepts the second. *)
Definition accepts_second : list attempt -> str -> result response :=
  fun before _ =>
    match before with
    | [_] => Ok found
    | _ => Ok not_found
    end.


(** ** Further notions *)

(** The lines of a document, in order. *)
Definition all_lines (d : document) : list line :=
  concat (map (fun p => concat (map lines (blocks p))) (pages d)).

(** The OCR read [raw] where the receipt says [truth]: the same characters,
    but for some [a] read as [b]. *)
Definition misread (a b : ascii) (truth raw : str) : Prop :=
  Forall2 (fun t r => r = t \/ (t = a /\ r = b)) truth raw.

(** The endpoint answers every request, and accepts the URL [url] only. *)
Definition accepts_only (E : env) (url : str) : Prop :=
  forall before u,
    exists r, http E before u = Ok r /\ (success r = true <-> u = url).

(** An endpoint that knows one receipt. *)
Definition knows (tx_id : string) : list attempt -> str -> result response :=
  fun _ u => if decide (u = receipt_url tx_id) then Ok found else Ok not_found.

(** Where the handler stores the photo with the given file id. *)
Definition photo_path (photo_file : str) : str :=
  py "downloads/" ++ photo_file ++ py ".jpg".



(** The identifier a success announcement speaks of. *)
Definition announced (raw : str) (m : reply) : option str :=
  match m with
  | MsgValid => Some raw
  | MsgValidOto0 => Some (replace "O" (py "0") raw)
  | MsgValid0toO => Some (replace "0" (py "O") raw)
  | _ => None
  end.

(** A well-formed identifier: not empty, without white space or colon. *)
Definition well_formed (c : str) : Prop :=
  c <> [] /\ forall x, In x c -> isspace x = false /\ x <> ":"%char.

(** ** Characters *)

Lemma upper_char_idem c : upper_char (upper_char c) = upper_char c.
Proof. destruct c as [[] [] [] [] [] [] [] []]; reflexivity. Qed.

Lemma isspace_upper_char c : isspace (upper_char c) = isspace c.
Proof. destruct c as [[] [] [] [] [] [] [] []]; reflexivity. Qed.

Lemma upper_char_colon c : upper_char c = ":"%char -> c = ":"%char.
Proof. destruct c as [[] [] [] [] [] [] [] []]; vm_compute; congruence. Qed.

Lemma eqb_ascii_eq a b : Ascii.eqb a b = true <-> a = b.
Proof. apply Ascii.eqb_eq. Qed.

(** ** Searching *)

Lemma starts_ignore_case_lower p s :
  starts_ignore_case p s = startswith (lower p) (lower s).
Proof.
  revert s. induction p as [|a p IH]; intros [|b s]; simpl; try reflexivity.
  unfold eq_ignore_case. now rewrite IH.
Qed.

Lemma startswith_length p s :
  startswith p s = true -> (length p <= length s)%nat.
Proof.
  revert s. induction p as [|a p IH]; intros [|b s]; simpl;
    try lia; try discriminate.
  intros [_ H]%andb_true_iff. apply IH in H. lia.
Qed.

Lemma startswith_app p s : startswith p s = true <-> exists t, s = p ++ t.
Proof.
  revert s. induction p as [|a p IH]; intros s; simpl.
  - split; eauto.
  - destruct s as [|b s].
    + split; [discriminate | intros [t Ht]; discriminate].
    + rewrite andb_true_iff, eqb_ascii_eq, IH. split.
      * intros [-> [t ->]]. eauto.
      * intros [t Ht]. injection Ht as -> ->. eauto.
Qed.

Lemma length_lower s : length (lower s) = length s.
Proof. apply length_map. Qed.

(** [find] on the lowered text locates the place the label matches in the
    text as given, and [in] tells whether there is one. *)
Lemma find_after_label lbl s i :
  match after_label lbl s with
  | Some post =>
      contains (lower lbl) (lower s) = true
      /\ exists k : nat,
           find_from (lower lbl) (lower s) i = i + Z.of_nat k
           /\ (k + length lbl <= length s)%nat
           /\ post = drop (k + length lbl) s
  | None =>
      contains (lower lbl) (lower s) = false
      /\ find_from (lower lbl) (lower s) i = -1
  end.
Proof.
  revert i. induction s as [|c s IH]; intros i.
  - cbn [after_label lower map contains find_from].
    rewrite starts_ignore_case_lower. cbn [lower map].
    destruct (startswith (lower lbl) []) eqn:Hs.
    + split; [reflexivity|]. exists 0%nat.
      apply startswith_length in Hs. rewrite length_lower in Hs.
      repeat split; [lia | simpl in *; lia].
    + now split.
  - cbn [after_label lower map contains find_from].
    rewrite starts_ignore_case_lower. cbn [lower map].
    destruct (startswith (lower lbl) (lower_char c :: map lower_char s)) eqn:Hs.
    + split; [reflexivity|]. exists 0%nat.
      apply startswith_length in Hs. rewrite length_lower in Hs.
      cbn [length] in Hs. rewrite length_map in Hs.
      repeat split; [lia | simpl; lia].
    + specialize (IH (i + 1)). destruct (after_label lbl s) as [post|].
      * destruct IH as [Hc (k & Hf & Hl & ->)]. split; [exact Hc|].
        exists (S k). change (map lower_char s) with (lower s).
        rewrite Hf. repeat split; [lia | simpl; lia].
      * exact IH.
Qed.

Lemma slice_from_drop (s : str) (n : nat) :
  (n <= length s)%nat -> slice_from s (Z.of_nat n) = drop n s.
Proof.
  intros Hn. unfold slice_from, len.
  destruct (Z.ltb_spec (Z.of_nat n) 0); [lia|].
  f_equal. lia.
Qed.

Lemma code_remainder lbl text post :
  after_label lbl text = Some post ->
  contains (lower lbl) (lower text) = true
  /\ slice_from text (find (lower lbl) (lower text) + len lbl) = post.
Proof.
  intros H. pose proof (find_after_label lbl text 0) as Hf.
  rewrite H in Hf. destruct Hf as [Hc (k & Hf & Hl & ->)].
  split; [exact Hc|]. unfold find. rewrite Hf. unfold len.
  replace (0 + Z.of_nat k + Z.of_nat (length lbl))
    with (Z.of_nat (k + length lbl)) by lia.
  now apply slice_from_drop.
Qed.

Lemma code_no_label lbl text :
  after_label lbl text = None -> contains (lower lbl) (lower text) = false.
Proof.
  intros H. pose proof (find_after_label lbl text 0) as Hf.
  rewrite H in Hf. apply Hf.
Qed.

(** ** Running statements *)

Lemma getitem_0_nil {R A} w : @getitem R A [] 0 w = (Raise IndexError, w).
Proof. reflexivity. Qed.

Lemma getitem_0_cons {R A} (a : A) l w :
  @getitem R A (a :: l) 0 w = (Normal a, w).
Proof.
  unfold getitem. cbn [length]. 
  destruct (Z.leb_spec (Z.of_nat (S (length l))) 0); [lia|]. reflexivity.
Qed.

Lemma split_nil_of_falsy s : truthy s = false -> split s = [].
Proof. destruct s; [reflexivity | discriminate]. Qed.

(** ** Resolution: the code against the specification's reading *)

Lemma extract_transaction_info_eq text w :
  Telebirr.extract_transaction_info text w
  = (Ok (resolve text),
     if only_blank_left text then logged (LogExtractError IndexError) w
     else w).
Proof.
  unfold Telebirr.extract_transaction_info, resolve, only_blank_left,
    Telebirr.label, def, bind, when, try_except, tokens_after.
  destruct (after_label (py "Transaction Number") text) as [post|] eqn:Ha.
  - destruct (code_remainder _ _ _ Ha) as [-> ->].
    destruct (truthy (replace ":" [] (strip post))) eqn:Ht.
    + destruct (split (replace ":" [] (strip post))) as [|tok toks].
      * rewrite getitem_0_nil. reflexivity.
      * rewrite getitem_0_cons. reflexivity.
    + rewrite (split_nil_of_falsy _ Ht). reflexivity.
  - rewrite (code_no_label _ _ Ha). reflexivity.
Qed.

Lemma bot_extract_transaction_info_eq text w :
  Bot.extract_transaction_info text w
  = (Ok (match resolve text with
         | Some tx_id =>
             (Some Bot.bank_name, Some tx_id, Some Bot.verify_url)
         | None => (None, None, None)
         end),
     if only_blank_left text then logged (LogExtractError IndexError) w
     else w).
Proof.
  unfold Bot.extract_transaction_info, resolve, only_blank_left,
    Bot.label, def, bind, when, try_except, tokens_after.
  destruct (after_label (py "Transaction Number") text) as [post|] eqn:Ha.
  - destruct (code_remainder _ _ _ Ha) as [-> ->].
    destruct (truthy (replace ":" [] (strip post))) eqn:Ht.
    + destruct (split (replace ":" [] (strip post))) as [|tok toks].
      * rewrite getitem_0_nil. reflexivity.
      * rewrite getitem_0_cons. reflexivity.
    + rewrite (split_nil_of_falsy _ Ht). reflexivity.
  - rewrite (code_no_label _ _ Ha). reflexivity.
Qed.

(** ** What [after_label] finds *)

Lemma starts_ignore_case_spec lbl s :
  starts_ignore_case lbl s = true
  <-> exists lab post, s = lab ++ post /\ lower lab = lower lbl.
Proof.
  rewrite starts_ignore_case_lower, startswith_app. split.
  - intros [t Ht]. unfold lower in Ht.
    apply map_eq_app in Ht as (lab & post & -> & Hl & _). eauto.
  - intros (lab & post & -> & Hl). exists (lower post).
    unfold lower in *. now rewrite map_app, Hl.
Qed.



Lemma after_label_None lbl text :
  after_label lbl text = None ->
  forall pre lab post, ~ label_at lbl text pre lab post.
Proof.
  induction text as [|c text IH]; cbn [after_label];
    destruct (starts_ignore_case lbl _) eqn:Hs; try discriminate;
    intros Hn pre lab post [Ht Hl].
  - destruct pre; [|discriminate]. simpl in Ht.
    assert (starts_ignore_case lbl [] = true); [|congruence].
    apply starts_ignore_case_spec. now exists lab, post.
  - destruct pre as [|p pre].
    + assert (starts_ignore_case lbl (c :: text) = true); [|congruence].
      apply starts_ignore_case_spec. now exists lab, post.
    + injection Ht as _ Ht. apply (IH Hn pre lab post). now split.
Qed.


(** ** Tokens *)

Lemma split_tokens s :
  Forall (fun t => t <> [] /\ Forall (fun c => isspace c = false /\ In c s) t)
    (split s).
Proof.
  assert (Hw : forall (s : str) c (l : list str),
    Forall (fun t => t <> [] /\ Forall (fun c => isspace c = false /\ In c s) t) l ->
    Forall (fun t => t <> [] /\ Forall (fun c' => isspace c' = false /\ In c' (c :: s)) t) l).
  { intros s0 c l HF. eapply Forall_impl; [exact HF|].
    intros t [Hn Ht]. split; [exact Hn|].
    eapply Forall_impl; [exact Ht|].
    intros a [Ha Hi]. split; [exact Ha|now right]. }
  induction s as [|c s IH]; cbn [split]; [constructor|].
  destruct (isspace c) eqn:Hc; [now apply Hw|].
  assert (H1 : [c] <> [] /\ Forall (fun c' => isspace c' = false /\ In c' (c :: s)) [c]).
  { split; [discriminate|]. constructor; [|constructor].
    split; [exact Hc|now left]. }
  destruct s as [|c' s']; [constructor; [exact H1|constructor]|].
  destruct (isspace c') eqn:Hc'.
  - constructor; [exact H1|]. now apply Hw.
  - apply (Hw _ c) in IH. destruct (split (c' :: s')) as [|t ts].
    + constructor; [exact H1|constructor].
    + inversion IH as [|? ? [Hn Ht] Hts]; subst. constructor; [|exact Hts].
      split; [discriminate|]. constructor; [|exact Ht].
      split; [exact Hc|now left].
Qed.

Lemma replace_colon_free s : ~ In ":"%char (replace ":" [] s).
Proof.
  induction s as [|c s IH]; cbn [replace]; [intros []|].
  destruct (Ascii.eqb c ":") eqn:Hc; [exact IH|].
  simpl. intros [Heq|H]; [|now apply IH].
  subst c. now rewrite Ascii.eqb_refl in Hc.
Qed.

Lemma In_lstrip c s : In c (lstrip s) -> In c s.
Proof.
  induction s as [|a s IH]; cbn [lstrip]; [easy|].
  destruct (isspace a); [right; auto | easy].
Qed.

Lemma In_strip c s : In c (strip s) -> In c s.
Proof.
  unfold strip, rstrip. intros H. apply In_lstrip.
  apply in_rev in H. apply In_lstrip in H. now apply in_rev.
Qed.

Lemma In_replace_colon c s : In c (replace ":" [] s) -> In c s.
Proof.
  induction s as [|a s IH]; cbn [replace]; [easy|].
  destruct (Ascii.eqb a ":"); simpl; [right; auto|].
  intros [->|H]; [now left | right; auto].
Qed.

Lemma split_blank s : (forall c, In c s -> isspace c = true) -> split s = [].
Proof.
  induction s as [|a s IH]; intros H; cbn [split]; [reflexivity|].
  rewrite (H a (or_introl eq_refl)). apply IH. intros c Hc. apply H. now right.
Qed.

(** Colons and white space leave no token. *)
Lemma tokens_after_blank post :
  forallb (fun c => Ascii.eqb c ":" || isspace c) post = true ->
  tokens_after post = [].
Proof.
  intros H. unfold tokens_after. apply split_blank. intros c Hc.
  assert (Hn : c <> ":"%char).
  { intros ->. exact (replace_colon_free _ Hc). }
  apply In_replace_colon, In_strip in Hc.
  rewrite forallb_forall in H. specialize (H c Hc).
  apply orb_true_iff in H as [H|H]; [|exact H].
  now apply Ascii.eqb_eq in H.
Qed.

Lemma upper_idem s : upper (upper s) = upper s.
Proof.
  unfold upper. rewrite map_map. apply map_ext. apply upper_char_idem.
Qed.

(** What a token taken after the label looks like once upper-cased. *)
Lemma token_shape post tok toks :
  tokens_after post = tok :: toks ->
  upper tok <> []
  /\ forallb (fun c => negb (isspace c)) (upper tok) = true
  /\ ~ In ":"%char (upper tok)
  /\ upper (upper tok) = upper tok.
Proof.
  intros Ht. pose proof (split_tokens (replace ":" [] (strip post))) as HF.
  unfold tokens_after in Ht. rewrite Ht in HF.
  inversion HF as [|? ? [Hne Hall] _]; subst.
  rewrite Forall_forall in Hall.
  repeat split.
  - destruct tok; [congruence | discriminate].
  - apply forallb_forall. intros c Hc. unfold upper in Hc.
    apply in_map_iff in Hc as (a & <- & Ha).
    rewrite isspace_upper_char.
    apply list_elem_of_In, Hall in Ha as [-> _]. reflexivity.
  - intros Hc. unfold upper in Hc. apply in_map_iff in Hc as (a & Ha & Hi).
    apply upper_char_colon in Ha as ->.
    apply list_elem_of_In, Hall in Hi as [_ Hi].
    exact (replace_colon_free _ Hi).
  - apply upper_idem.
Qed.

(** ** Claims on resolution *)



(** C9: the resolver of either file returns for every text and never
    raises; when the text after the label holds nothing but colons and
    white space it returns not-found, and where that text is not empty once
    stripped and rid of its colons, the IndexError of taking the first token
    was caught and logged. *)
Theorem extract_transaction_info_total (text : str) (w : world) :
  (exists r w', Telebirr.extract_transaction_info text w = (Ok r, w'))
  /\ (exists r w', Bot.extract_transaction_info text w = (Ok r, w'))
  /\ (forall post,
        after_label Telebirr.label text = Some post ->
        forallb (fun c => Ascii.eqb c ":" || isspace c) post = true ->
        fst (Telebirr.extract_transaction_info text w) = Ok None
        /\ fst (Bot.extract_transaction_info text w) = Ok (None, None, None)
        /\ (truthy (replace ":" [] (strip post)) = true ->
            log (snd (Telebirr.extract_transaction_info text w))
            = log w ++ [LogExtractError IndexError])).
Proof.
  rewrite extract_transaction_info_eq, bot_extract_transaction_info_eq.
  split; [eauto|]. split; [eauto|].
  intros post Ha Hb. apply tokens_after_blank in Hb.
  unfold resolve, only_blank_left, Telebirr.label in *.
  rewrite Ha, Hb. cbn [fst snd]. repeat split.
  intros ->. reflexivity.
Qed.

Lemma extract_transaction_info_total_witness :
  after_label Telebirr.label (py "Transaction Number : : ") = Some (py " : : ")
  /\ fst (Telebirr.extract_transaction_info (py "Transaction Number : : ") fresh)
     = Ok None
  /\ log (snd (Telebirr.extract_transaction_info
                 (py "Transaction Number : : ") fresh))
     = [LogExtractError IndexError].
Proof.
  split; [reflexivity|].
  destruct (proj2 (proj2 (extract_transaction_info_total
                            (py "Transaction Number : : ") fresh))
              (py " : : ") eq_refl eq_refl) as (H1 & _ & H2).
  split; [exact H1 | exact (H2 eq_refl)].
Defined.



(** ** Linearization *)

Lemma fold_left_append {A} (f : str -> A -> str) (g : A -> str) l a :
  (forall acc x, f acc x = acc ++ g x) ->
  fold_left f l a = a ++ concat (map g l).
Proof.
  intros Hf. revert a. induction l as [|x l IH]; intros a; simpl.
  - now rewrite app_nil_r.
  - now rewrite IH, Hf, <- app_assoc.
Qed.

Lemma full_text_of_linearize d : Telebirr.full_text_of d = linearize d.
Proof.
  unfold Telebirr.full_text_of, linearize.
  rewrite (fold_left_append _
    (fun p => concat (map (fun b => concat (map line_text (lines b))) (blocks p))));
    [reflexivity|].
  intros acc p.
  apply (fold_left_append _ (fun b => concat (map line_text (lines b)))).
  intros acc' b. now apply fold_left_append.
Qed.

Lemma bot_full_text_of_linearize d : Bot.full_text_of d = linearize d.
Proof. apply full_text_of_linearize. Qed.

(** ** The extractor *)

Lemma lstrip_blank s : forallb isspace s = true -> lstrip s = [].
Proof.
  induction s as [|c s IH]; simpl; [reflexivity|].
  intros [-> H]%andb_true_iff. auto.
Qed.

Lemma strip_blank s : forallb isspace s = true -> strip s = [].
Proof. intros H. unfold strip. now rewrite (lstrip_blank _ H). Qed.

Lemma process_image_for_txid_eq E image_path w :
  Telebirr.process_image_for_txid E image_path w
  = (Ok (match extracted_text E image_path with
         | Some full_text =>
             (resolve full_text, Some Telebirr.TELEBIRR_VERIFICATION_URL)
         | None => (None, None)
         end),
     extractor_log E image_path w).
Proof.
  unfold Telebirr.process_image_for_txid, extracted_text, extractor_log,
    ocr_outcome, def, try_except, bind, DocumentFile_from_images, run_ocr,
    call, when.
  cbn [logger fst snd].
  destruct (from_images E image_path) as [doc|e]; [|reflexivity].
  destruct (ocr_predictor E doc) as [[d|]|e]; [|reflexivity|reflexivity].
  rewrite full_text_of_linearize.
  destruct (pages d) as [|p ps]; [reflexivity|].
  destruct (truthy (strip (linearize d))); [|reflexivity].
  cbn [negb logger ret]. rewrite extract_transaction_info_eq. reflexivity.
Qed.

Lemma bot_process_image_for_txid_eq E image_path w :
  Bot.process_image_for_txid E image_path w
  = (Ok (match extracted_text E image_path with
         | Some full_text =>
             match resolve full_text with
             | Some tx_id =>
                 (Some Bot.bank_name, Some tx_id, Some Bot.verify_url)
             | None => (None, None, None)
             end
         | None => (None, None, None)
         end),
     extractor_log E image_path w).
Proof.
  unfold Bot.process_image_for_txid, extracted_text, extractor_log,
    ocr_outcome, def, try_except, bind, DocumentFile_from_images, run_ocr,
    call, when.
  cbn [logger fst snd].
  destruct (from_images E image_path) as [doc|e]; [|reflexivity].
  destruct (ocr_predictor E doc) as [[d|]|e]; [|reflexivity|reflexivity].
  rewrite bot_full_text_of_linearize.
  destruct (pages d) as [|p ps]; [reflexivity|].
  destruct (truthy (strip (linearize d))); [|reflexivity].
  cbn [negb logger ret]. rewrite bot_extract_transaction_info_eq.
  destruct (resolve (linearize d)); reflexivity.
Qed.

(** ** Claims on the extractor *)

(** C6: the text built from an OCR document is the concatenation, over the
    pages, their blocks and their lines in order, of the words of the line
    joined by single spaces and followed by a line feed; this is the text
    the extractor resolves. *)
Theorem full_text_is_linearization (d : document) :
  Telebirr.full_text_of d = linearize d
  /\ Bot.full_text_of d = linearize d
  /\ forall E image_path w,
       ocr_outcome E image_path = Ok (Some d) ->
       fst (Telebirr.process_image_for_txid E image_path w)
       = Ok (match pages d with
             | [] => (None, None)
             | _ =>
                 if truthy (strip (linearize d))
                 then (resolve (linearize d),
                       Some Telebirr.TELEBIRR_VERIFICATION_URL)
                 else (None, None)
             end).
Proof.
  split; [apply full_text_of_linearize|].
  split; [apply bot_full_text_of_linearize|].
  intros E image_path w Ho. rewrite process_image_for_txid_eq.
  unfold extracted_text. rewrite Ho. cbn [fst].
  destruct (pages d); [reflexivity|].
  now destruct (truthy (strip (linearize d))).
Qed.

Lemma full_text_is_linearization_witness :
  Telebirr.full_text_of receipt
  = py "Transaction Number:" ++ [newline] ++ py "ab01o3" ++ [newline]
  /\ fst (Telebirr.process_image_for_txid
            (mock (Ok (Some receipt)) (fun _ _ => Ok not_found) delivers)
            (py "downloads/f1.jpg") fresh)
     = Ok (Some (py "AB01O3"), Some Telebirr.TELEBIRR_VERIFICATION_URL).
Proof.
  split.
  - rewrite (proj1 (full_text_is_linearization receipt)). reflexivity.
  - rewrite (proj2 (proj2 (full_text_is_linearization receipt))
               (mock (Ok (Some receipt)) (fun _ _ => Ok not_found) delivers)
               (py "downloads/f1.jpg") fresh eq_refl).
    reflexivity.
Defined.

(** C7: the extractor returns for every image path and never raises; when
    the OCR backend raises, gives no result or no pages, or the extracted
    text is all white space, it returns the one not-found result. *)
Theorem process_image_for_txid_failure (E : env) (image_path : str) (w : world) :
  (exists r w', Telebirr.process_image_for_txid E image_path w = (Ok r, w'))
  /\ (exists r w', Bot.process_image_for_txid E image_path w = (Ok r, w'))
  /\ (ocr_failed E image_path = true ->
      fst (Telebirr.process_image_for_txid E image_path w) = Ok (None, None)
      /\ fst (Bot.process_image_for_txid E image_path w)
         = Ok (None, None, None)).
Proof.
  rewrite process_image_for_txid_eq, bot_process_image_for_txid_eq.
  split; [eauto|]. split; [eauto|].
  unfold ocr_failed, extracted_text. cbn [fst].
  destruct (ocr_outcome E image_path) as [[d|]|e]; try (intros _; now split).
  destruct (pages d); [intros _; now split|].
  intros H. rewrite (strip_blank _ H). now split.
Qed.

Lemma process_image_for_txid_failure_witness :
  ocr_failed (mock (Err RuntimeError) (fun _ _ => Ok not_found) delivers)
    (py "downloads/f1.jpg") = true
  /\ ocr_failed (mock (Ok (Some (one_block [[" "%string]])))
                   (fun _ _ => Ok not_found) delivers)
       (py "downloads/f1.jpg") = true
  /\ fst (Telebirr.process_image_for_txid
            (mock (Err RuntimeError) (fun _ _ => Ok not_found) delivers)
            (py "downloads/f1.jpg") fresh)
     = Ok (None, None).
Proof.
  split; [reflexivity|]. split; [reflexivity|].
  apply (proj2 (proj2 (process_image_for_txid_failure
                         (mock (Err RuntimeError) (fun _ _ => Ok not_found)
                            delivers)
                         (py "downloads/f1.jpg") fresh))).
  reflexivity.
Defined.

(** ** Verification: the code against the loop over the candidates *)

Ltac run_python :=
  cbn [fst snd files requests replies log app map last negb andb orb
       is_RequestException];
  rewrite <- ?app_assoc; cbn [app].

Lemma verify_telebirr_receipt_eq E tx_id verify_url w :
  let l := attempts E (requests w) (map (format verify_url) (candidates tx_id)) in
  Telebirr.verify_telebirr_receipt E tx_id verify_url w
  = (caught (verdict l), after_attempts l (transport_log l) w).
Proof.
  unfold Telebirr.verify_telebirr_receipt, candidates, def, try_except, bind,
    requests_get, when, return_, ret, logger, caught, verdict, transport_log,
    after_attempts.
  fold (success).
  destruct w as [fs rq rp lg]. cbn [files requests replies log].
  destruct (contains (py "O") tx_id), (contains (py "0") tx_id);
    cbn [app map attempts];
    repeat match goal with
    | |- context [http ?E' ?b ?u] =>
        let r := fresh "r" in
        let e := fresh "e" in
        destruct (http E' b u) as [r|e];
        [ change ((status_code r =? 200)
                  && contains Telebirr.SUCCESS_STRING (text r))
            with (success r);
          destruct (success r) eqn:? | destruct e ];
        run_python
    end;
    repeat match goal with H : success _ = _ |- _ => rewrite H; clear H end;
    try rewrite !app_nil_r; reflexivity.
Qed.

Lemma attempts_cons E before u us :
  attempts E before (u :: us)
  = (u, http E before u)
    :: (if clean_failure (http E before u)
        then attempts E (before ++ [(u, http E before u)]) us
        else []).
Proof.
  cbn [attempts]. unfold clean_failure.
  destruct (http E before u) as [r|e]; [|reflexivity].
  now destruct (success r).
Qed.

Lemma clean_failure_inv a :
  clean_failure a = true -> exists r, a = Ok r /\ success r = false.
Proof.
  destruct a as [r|e]; [|discriminate]. cbn. intros H%negb_true_iff. eauto.
Qed.

Lemma attempts_stop E before urls :
  stops_at_first_success E before urls (attempts E before urls).
Proof.
  revert before. induction urls as [|u us IH]; intros before.
  - repeat split; try easy.
    + now exists [].
    + destruct l1; discriminate.
    + destruct l1; discriminate.
  - rewrite attempts_cons. set (a := http E before u).
    destruct (clean_failure a) eqn:Hc.
    + destruct (IH (before ++ [(u, a)])) as (Hpre & Hdec & Hlast & Hne).
      set (tl := attempts E (before ++ [(u, a)]) us) in *.
      apply clean_failure_inv in Hc as (r & Hr & Hs).
      split; [|split; [|split]].
      * destruct Hpre as [rest Hrest]. exists rest. cbn. now rewrite Hrest.
      * intros l1 u0 a0 l2 Hl. destruct l1 as [|x l1].
        -- injection Hl as <- <- <-. rewrite app_nil_r. split; [reflexivity|eauto].
        -- injection Hl as <- Hl. apply Hdec in Hl.
           now rewrite <- app_assoc in Hl.
      * intros u0 r0 Hl Hs0. destruct tl as [|x tl'] eqn:Htl.
        -- destruct us as [|u2 us]; [reflexivity|].
           now destruct Hne.
        -- cbn [map fst]. f_equal. apply (Hlast u0 r0); assumption.
      * discriminate.
    + split; [|split; [|split]].
      * now exists us.
      * intros l1 u0 a0 l2 Hl. destruct l1 as [|x l1];
          [|destruct l1; discriminate].
        injection Hl as <- <- <-. rewrite app_nil_r. split; [reflexivity|easy].
      * intros u0 r0 [= <- Ha] Hs. unfold clean_failure in Hc.
        rewrite Ha, Hs in Hc. discriminate.
      * discriminate.
Qed.

Lemma format_receipt_url c :
  format Telebirr.TELEBIRR_VERIFICATION_URL c
  = py "https://transactioninfo.ethiotelecom.et/receipt/" ++ c.
Proof. cbn. now rewrite app_nil_r. Qed.

Lemma success_iff r :
  success r = true
  <-> status_code r = 200
      /\ contains Telebirr.SUCCESS_STRING (text r) = true.
Proof. unfold success. now rewrite andb_true_iff, Z.eqb_eq. Qed.

Lemma last_snoc_inv {A} (l1 l2 : list A) x :
  l2 = [] -> last (l1 ++ x :: l2) = Some x.
Proof. intros ->. apply last_snoc. Qed.

(** A successful attempt is the last one. *)
Lemma success_is_last E before urls u r :
  In (u, Ok r) (attempts E before urls) -> success r = true ->
  last (attempts E before urls) = Some (u, Ok r).
Proof.
  intros Hin Hs. destruct (attempts_stop E before urls) as (_ & Hdec & _).
  apply in_split in Hin as (l1 & l2 & Hl). rewrite Hl.
  apply last_snoc_inv. destruct l2 as [|x l2]; [reflexivity|].
  destruct (Hdec _ _ _ _ Hl) as [_ Hc].
  destruct Hc as (r' & [= <-] & Hr'); [discriminate|congruence].
Qed.

(** ** Claims on verification *)

(** C2: the attempts of a verification run go through the candidates in
    order, the raw identifier first, then its O-to-0 variant if it holds an
    O, then its 0-to-O variant if it holds a 0, and stop at the first
    success; a raw identifier with neither character is attempted once. *)
Theorem verify_attempts_in_order (E : env) (tx_id : str) (w : world) :
  let urls := map (format Telebirr.TELEBIRR_VERIFICATION_URL)
                (candidates tx_id) in
  let l := attempts E (requests w) urls in
  candidates tx_id
  = [tx_id]
    ++ (if contains (py "O") tx_id then [replace "O" (py "0") tx_id] else [])
    ++ (if contains (py "0") tx_id then [replace "0" (py "O") tx_id] else [])
  /\ requests (snd (Telebirr.verify_telebirr_receipt E tx_id
                      Telebirr.TELEBIRR_VERIFICATION_URL w))
     = requests w ++ l
  /\ stops_at_first_success E (requests w) urls l
  /\ (contains (py "O") tx_id = false -> contains (py "0") tx_id = false ->
      length l = 1%nat).
Proof.
  intros urls l. split; [reflexivity|].
  split; [unfold l, urls; now rewrite verify_telebirr_receipt_eq|].
  split; [apply attempts_stop|].
  intros HO H0. unfold l, urls, candidates. rewrite HO, H0. cbn [app map].
  rewrite attempts_cons. now destruct (clean_failure _).
Qed.

Lemma verify_attempts_in_order_witness :
  contains (py "O") (py "XYZ9") = false
  /\ contains (py "0") (py "XYZ9") = false
  /\ length (attempts (mock (Ok None) (fun _ _ => Ok not_found) delivers) []
               (map (format Telebirr.TELEBIRR_VERIFICATION_URL)
                  (candidates (py "XYZ9")))) = 1%nat.
Proof.
  split; [reflexivity|]. split; [reflexivity|].
  apply (proj2 (proj2 (proj2 (verify_attempts_in_order
           (mock (Ok None) (fun _ _ => Ok not_found) delivers)
           (py "XYZ9") fresh))));
    reflexivity.
Defined.

(** C5: every attempt is a GET of the receipt URL of a candidate, answered
    by the endpoint, and the verification succeeds exactly when an attempt
    got status 200 and a body that holds the marker. *)
Theorem verify_success_condition (E : env) (tx_id : str) (w : world) :
  let l := attempts E (requests w)
             (map (format Telebirr.TELEBIRR_VERIFICATION_URL)
                (candidates tx_id)) in
  requests (snd (Telebirr.verify_telebirr_receipt E tx_id
                   Telebirr.TELEBIRR_VERIFICATION_URL w))
  = requests w ++ l
  /\ (forall l1 u a l2,
        l = l1 ++ (u, a) :: l2 ->
        (exists c,
           In c (candidates tx_id)
           /\ u = py "https://transactioninfo.ethiotelecom.et/receipt/" ++ c)
        /\ a = http E (requests w ++ l1) u)
  /\ (fst (Telebirr.verify_telebirr_receipt E tx_id
             Telebirr.TELEBIRR_VERIFICATION_URL w) = Ok true
      <-> exists u r,
            In (u, Ok r) l
            /\ status_code r = 200
            /\ contains Telebirr.SUCCESS_STRING (text r) = true).
Proof.
  intros l. rewrite verify_telebirr_receipt_eq. fold l. cbn [fst snd requests].
  destruct (attempts_stop E (requests w)
              (map (format Telebirr.TELEBIRR_VERIFICATION_URL)
                 (candidates tx_id))) as ([rest Hpre] & Hdec & _).
  fold l in Hpre, Hdec.
  split; [reflexivity|]. split.
  - intros l1 u a l2 Hl. split; [|apply (Hdec _ _ _ _ Hl)].
    assert (Hu : In u (map (format Telebirr.TELEBIRR_VERIFICATION_URL)
                         (candidates tx_id))).
    { rewrite Hpre, Hl, map_app. cbn [map fst].
      apply in_or_app. left. apply in_or_app. right. now left. }
    apply in_map_iff in Hu as (c & <- & Hc). exists c.
    split; [exact Hc|apply format_receipt_url].
  - unfold caught, verdict. split.
    + destruct (last l) as [[u [r|e]]|] eqn:Hlast.
      * intros [= Hs]. exists u, r. apply success_iff in Hs.
        split; [|exact Hs]. apply last_Some in Hlast as [l' ->].
        apply in_or_app. right. now left.
      * destruct e; discriminate.
      * discriminate.
    + intros (u & r & Hin & Hs). apply success_iff in Hs.
      unfold l in *. rewrite (success_is_last _ _ _ _ _ Hin Hs).
      now rewrite Hs.
Qed.

(** ** The photo handler, step by step *)

Lemma extractor_log_frame E p w :
  files (extractor_log E p w) = files w
  /\ requests (extractor_log E p w) = requests w
  /\ replies (extractor_log E p w) = replies w.
Proof.
  unfold extractor_log, gave_up, logged.
  destruct (ocr_outcome E p) as [[d|]|e]; try easy.
  destruct (pages d); try easy.
  destruct (truthy (strip (linearize d))); try easy.
  now destruct (only_blank_left (linearize d)).
Qed.

Lemma resolve_truthy text tx_id : resolve text = Some tx_id -> truthy tx_id = true.
Proof.
  unfold resolve. destruct (after_label _ text) as [post|]; [|discriminate].
  destruct (tokens_after post) as [|tok toks] eqn:Ht; [discriminate|].
  intros [= <-]. destruct (token_shape _ _ _ Ht) as [Hne _].
  now destruct (upper tok).
Qed.

Lemma truthy_verify_url : truthy Bot.verify_url = true.
Proof. reflexivity. Qed.

(** Symbolic execution of a function body: unfold the statements, then
    decide the call the body is waiting for. *)
Ltac head_call t :=
  lazymatch t with
  | match ?x with _ => _ end => head_call x
  | (match ?x with _ => _ end) _ => head_call x
  | _ => t
  end.

Ltac python :=
  cbv beta iota zeta delta
    [bind try_except when def call ret return_ raise logger requests_get
     reply_text path_exists os_remove os_makedirs get_file download_to_drive
     from_option id finish conclusion
     caught verdict transport_log after_attempts announcements candidates
     success];
  cbn [app map last length nth Nat.sub negb andb orb send_all attempts
       fst snd files requests replies log is_RequestException];
  rewrite <- ?app_assoc; cbn [app].

Ltac file_exists :=
  repeat match goal with
  | |- context [@bool_decide ?P ?d] =>
      replace (@bool_decide P d) with true
        by (symmetry; apply bool_decide_eq_true_2; set_solver)
  end.

Ltac step :=
  lazymatch goal with
  | |- ?L = _ =>
      let x := head_call L in
      lazymatch x with
      | http _ _ _ => destruct x eqn:?
      | tg_send _ _ _ => destruct x eqn:?
      | tg_get_file _ => destruct x eqn:?
      | tg_download _ _ => destruct x eqn:?
      | contains _ _ => destruct x eqn:?
      | (_ && _)%bool => destruct x eqn:?
      | is_RequestException _ => destruct x eqn:?
      end
  end; python.

Ltac finish_path :=
  repeat (progress
    (repeat match goal with H : ?x = _ |- context [?x] => rewrite H end;
     python; rewrite ?app_nil_r));
  file_exists; python; try reflexivity.

(** The handler does what its steps say. *)
Lemma handle_photo_eq E w : Bot.handle_photo E w = handle_photo_steps E w.
Proof.
  unfold Bot.handle_photo, handle_photo_steps.
  destruct w as [fs rq rp lg]. python.
  step; [|reflexivity].
  step; [|reflexivity].
  step; [|reflexivity].
  rewrite bot_process_image_for_txid_eq. unfold identifier_of.
  set (file_path := py "downloads/" ++ _ ++ py ".jpg").
  destruct (extractor_log_frame E file_path
              {| files := fs ∪ {[file_path]}; requests := rq;
                 replies := rp ++ [MsgProcessing]; log := lg |})
    as (Hf & Hr & Hp).
  destruct (extractor_log E file_path _) as [fs3 rq3 rp3 lg3].
  cbn [files requests replies] in Hf, Hr, Hp. subst.
  destruct (extracted_text E file_path) as [full_text|];
    [destruct (resolve full_text) as [tx_id|] eqn:Hres|].
  2,3: python; cbn [truthy_opt andb]; python; step; file_exists; python;
    reflexivity.
  python. cbn [truthy_opt].
  rewrite (resolve_truthy _ _ Hres), truthy_verify_url.
  change Bot.success_string with Telebirr.SUCCESS_STRING. python.
  repeat (file_exists; step).
  all: finish_path.
Qed.

(** ** Consequences for the attempts and the replies *)

Lemma failure_is_last E before urls l1 u a l2 :
  attempts E before urls = l1 ++ (u, a) :: l2 ->
  clean_failure a = false -> l2 = [].
Proof.
  intros Hl Ha. destruct (attempts_stop E before urls) as (_ & Hdec & _).
  destruct l2 as [|x l2]; [reflexivity|].
  destruct (Hdec _ _ _ _ Hl) as [_ Hc].
  destruct Hc as (r & Hr & Hs); [discriminate|]. subst a.
  cbn in Ha. now rewrite Hs in Ha.
Qed.

Lemma send_all_frame E ms w :
  files (snd (send_all E ms w)) = files w
  /\ requests (snd (send_all E ms w)) = requests w
  /\ log (snd (send_all E ms w)) = log w.
Proof.
  revert w. induction ms as [|m ms IH]; intros w; cbn [send_all]; [easy|].
  destruct (tg_send E (replies w) m); [|easy].
  destruct (IH {| files := files w; requests := requests w;
                  replies := replies w ++ [m]; log := log w |}) as (H1 & H2 & H3).
  now rewrite H1, H2, H3.
Qed.

Lemma send_all_replies E ms w :
  exists k, (ms = [] \/ 1 <= k)%nat
    /\ replies (snd (send_all E ms w)) = replies w ++ take k ms.
Proof.
  revert w. induction ms as [|m ms IH]; intros w; cbn [send_all].
  - exists 0%nat. split; [now left|]. now rewrite app_nil_r.
  - destruct (tg_send E (replies w) m).
    + destruct (IH {| files := files w; requests := requests w;
                      replies := replies w ++ [m]; log := log w |})
        as (k & _ & Hk).
      exists (S k). split; [right; lia|]. rewrite Hk. cbn [replies take].
      now rewrite <- app_assoc.
    + exists 1%nat. split; [right; lia|]. cbn [snd replies take].
      now rewrite take_0.
Qed.

Lemma finish_deletes E p ms w w' :
  finish E p ms w = (Ok tt, w') -> p ∉ files w'.
Proof.
  unfold finish. destruct (send_all E ms w) as [[] w0]; [|discriminate].
  intros H. apply (f_equal snd) in H. cbn [snd] in H. subst w'.
  cbn [files]. intros [_ Hn]%elem_of_difference. apply Hn.
  now apply elem_of_singleton.
Qed.

Lemma finish_frame E p ms w :
  requests (snd (finish E p ms w)) = requests w
  /\ log (snd (finish E p ms w)) = log w
  /\ replies (snd (finish E p ms w)) = replies (snd (send_all E ms w)).
Proof.
  unfold finish. destruct (send_all_frame E ms w) as (_ & Hr & Hl).
  destruct (send_all E ms w) as [[] w0]; cbn [snd requests log replies] in *;
    auto.
Qed.

Lemma conclusion_of_exception tx_id l e :
  caught (verdict l) = Err e -> conclusion tx_id l = [].
Proof.
  unfold caught, verdict, conclusion.
  destruct (last l) as [[u [r|e']]|]; try discriminate.
  now destruct (is_RequestException e').
Qed.

(** What the handler leaves behind: the attempts, and the replies. *)
Lemma handle_photo_summary E w :
  match identifier_to_verify E w with
  | Some tx_id =>
      let l := attempts E (requests w)
                 (map (format Bot.verify_url) (candidates tx_id)) in
      requests (snd (Bot.handle_photo E w)) = requests w ++ l
      /\ exists k,
           (1 <= k)%nat
           /\ replies (snd (Bot.handle_photo E w))
              = replies w ++ MsgProcessing :: take k (conclusion tx_id l)
  | None => requests (snd (Bot.handle_photo E w)) = requests w
  end.
Proof.
  rewrite handle_photo_eq. unfold identifier_to_verify, handle_photo_steps.
  destruct (tg_get_file E) as [photo_file|]; [|reflexivity].
  set (file_path := py "downloads/" ++ photo_file ++ py ".jpg").
  destruct (tg_download E file_path); [|reflexivity].
  cbn [negb andb send_all files requests replies log].
  destruct (tg_send E (replies w) MsgProcessing); [|reflexivity].
  set (w2 := {| files := _ |}).
  destruct (extractor_log_frame E file_path w2) as (_ & Hr3 & Hp3).
  set (w3 := extractor_log E file_path w2) in *.
  cbn [w2 requests replies] in Hr3, Hp3.
  destruct (identifier_of E file_path) as [tx_id|].
  - rewrite Hr3. set (l := attempts E _ _).
    destruct (caught (verdict l)) as [b|e] eqn:Hv.
    + destruct (finish_frame E file_path (conclusion tx_id l)
                  (after_attempts l (transport_log l) w3)) as (-> & _ & ->).
      cbn [after_attempts requests]. rewrite Hr3. split; [reflexivity|].
      destruct (send_all_replies E (conclusion tx_id l)
                  (after_attempts l (transport_log l) w3)) as (k & Hk & ->).
      cbn [after_attempts replies]. rewrite Hp3, <- app_assoc. cbn [app].
      destruct Hk as [Hk|Hk].
      * exists 1%nat. split; [lia|]. now rewrite Hk, !take_nil.
      * now exists k.
    + cbn [snd after_attempts requests replies]. rewrite Hr3, Hp3.
      split; [reflexivity|]. exists 1%nat. split; [lia|].
      now rewrite (conclusion_of_exception _ _ _ Hv).
  - destruct (finish_frame E file_path [MsgNoTransactionId] w3) as (-> & _).
    exact Hr3.
Qed.

Lemma up_to_three_attempts_eq E before verify_url tx_id :
  contains (py "O") tx_id = true -> contains (py "0") tx_id = true ->
  attempts E before (map (format verify_url) (candidates tx_id))
  = up_to_three_attempts E before verify_url tx_id.
Proof.
  intros HO H0. unfold candidates, up_to_three_attempts. rewrite HO, H0.
  cbn [app map]. rewrite !attempts_cons.
  destruct (clean_failure (http E before _)); [|reflexivity].
  destruct (clean_failure (http E (before ++ _) _)); [|reflexivity].
  rewrite <- app_assoc. cbn [app attempts].
  now destruct (clean_failure _).
Qed.

Lemma ends_in_transport_error (l : list attempt) u e :
  last l = Some (u, Err e) -> is_RequestException e = true ->
  forall tx_id,
    caught (verdict l) = Ok false
    /\ transport_log l = [LogHttpError e]
    /\ conclusion tx_id l = [MsgTransportError].
Proof.
  intros Hl He tx_id. unfold caught, verdict, transport_log, conclusion.
  now rewrite Hl, He.
Qed.

Lemma ends_in_clean_failure (l : list attempt) :
  l <> [] -> Forall (fun x : attempt => clean_failure (snd x) = true) l ->
  forall tx_id,
    caught (verdict l) = Ok false
    /\ transport_log l = []
    /\ conclusion tx_id l = [MsgNotVerified].
Proof.
  intros Hne Hall tx_id.
  destruct (last l) as [[u a]|] eqn:Hl; [|now apply last_None in Hl].
  pose proof Hl as Hl'. apply last_Some in Hl' as [l' ->].
  destruct (proj1 (Forall_app _ _ _) Hall) as [_ Hx].
  inversion Hx as [|? ? Hx' _]; subst.
  apply clean_failure_inv in Hx' as (r & Hr & Hs). cbn [snd] in Hr. subst a.
  unfold caught, verdict, transport_log, conclusion. now rewrite Hl, Hs.
Qed.

Lemma candidates_attempted E before verify_url tx_id :
  attempts E before (map (format verify_url) (candidates tx_id)) <> [].
Proof. unfold candidates. cbn [map]. now rewrite attempts_cons. Qed.

(** ** Claims on transport failures, on identifiers with both characters,
    and on the clean-up *)

(** C3 as stated fails: [verify_telebirr_receipt] returns the same value
    when the transport raises on the one attempt as when the endpoint
    rejects it. *)
Lemma transport_failure_returns_not_verified :
  fst (Telebirr.verify_telebirr_receipt (mock (Ok None) unreachable delivers)
         (py "XYZ9") Telebirr.TELEBIRR_VERIFICATION_URL fresh)
  = fst (Telebirr.verify_telebirr_receipt (mock (Ok None) rejecting delivers)
           (py "XYZ9") Telebirr.TELEBIRR_VERIFICATION_URL fresh)
  /\ requests (snd (Telebirr.verify_telebirr_receipt
                      (mock (Ok None) unreachable delivers)
                      (py "XYZ9") Telebirr.TELEBIRR_VERIFICATION_URL fresh))
     = [(receipt_url "XYZ9", Err RequestException)]
  /\ requests (snd (Telebirr.verify_telebirr_receipt
                      (mock (Ok None) rejecting delivers)
                      (py "XYZ9") Telebirr.TELEBIRR_VERIFICATION_URL fresh))
     = [(receipt_url "XYZ9", Ok not_found)].
Proof. repeat split; vm_compute; reflexivity. Qed.

(** C3, amended: an attempt on which the transport raises a
    [RequestException] is the last one.  [verify_telebirr_receipt] then
    returns [False] and logs the error, where a clean not-verified run
    returns [False] and logs nothing; [handle_photo] then replies with the
    try-again-later message, where a clean not-verified run gets the
    not-verified message. *)
Theorem transport_failure_stops (E : env) (w : world) :
  (forall tx_id l1 u e l2,
     requests (snd (Telebirr.verify_telebirr_receipt E tx_id
                      Telebirr.TELEBIRR_VERIFICATION_URL w))
     = requests w ++ l1 ++ (u, Err e) :: l2 ->
     is_RequestException e = true ->
     l2 = []
     /\ fst (Telebirr.verify_telebirr_receipt E tx_id
               Telebirr.TELEBIRR_VERIFICATION_URL w) = Ok false
     /\ log (snd (Telebirr.verify_telebirr_receipt E tx_id
                     Telebirr.TELEBIRR_VERIFICATION_URL w))
        = log w ++ [LogHttpError e])
  /\ (forall tx_id l,
        requests (snd (Telebirr.verify_telebirr_receipt E tx_id
                         Telebirr.TELEBIRR_VERIFICATION_URL w))
        = requests w ++ l ->
        Forall (fun x : attempt => clean_failure (snd x) = true) l ->
        fst (Telebirr.verify_telebirr_receipt E tx_id
               Telebirr.TELEBIRR_VERIFICATION_URL w) = Ok false
        /\ log (snd (Telebirr.verify_telebirr_receipt E tx_id
                        Telebirr.TELEBIRR_VERIFICATION_URL w))
           = log w)
  /\ (forall l1 u e l2,
        requests (snd (Bot.handle_photo E w))
        = requests w ++ l1 ++ (u, Err e) :: l2 ->
        is_RequestException e = true ->
        l2 = []
        /\ replies (snd (Bot.handle_photo E w))
           = replies w ++ [MsgProcessing; MsgTransportError])
  /\ (forall l,
        l <> [] ->
        requests (snd (Bot.handle_photo E w)) = requests w ++ l ->
        Forall (fun x : attempt => clean_failure (snd x) = true) l ->
        replies (snd (Bot.handle_photo E w))
        = replies w ++ [MsgProcessing; MsgNotVerified]).
Proof.
  split; [|split; [|split]].
  - intros tx_id l1 u e l2. rewrite verify_telebirr_receipt_eq.
    cbn [fst snd after_attempts requests log].
    intros Hl%app_inv_head He.
    pose proof (failure_is_last _ _ _ _ _ _ _ Hl eq_refl) as ->.
    split; [reflexivity|].
    assert (Hlast : last (attempts E (requests w)
                            (map (format Telebirr.TELEBIRR_VERIFICATION_URL)
                               (candidates tx_id)))
                    = Some (u, Err e)).
    { rewrite Hl. apply last_snoc. }
    destruct (ends_in_transport_error _ _ _ Hlast He tx_id) as (-> & -> & _).
    now split.
  - intros tx_id l. rewrite verify_telebirr_receipt_eq.
    cbn [fst snd after_attempts requests log].
    intros Hl%app_inv_head Hall. rewrite <- Hl in Hall.
    destruct (ends_in_clean_failure _ (candidates_attempted E _ _ _) Hall tx_id)
      as (-> & -> & _).
    now rewrite app_nil_r.
  - intros l1 u e l2 Hr He. pose proof (handle_photo_summary E w) as Hs.
    destruct (identifier_to_verify E w) as [tx_id|].
    + destruct Hs as [Hreq (k & Hk & Hrep)]. rewrite Hreq in Hr.
      apply app_inv_head in Hr.
      pose proof (failure_is_last _ _ _ _ _ _ _ Hr eq_refl) as ->.
      split; [reflexivity|].
      assert (Hlast : last (attempts E (requests w)
                              (map (format Bot.verify_url) (candidates tx_id)))
                      = Some (u, Err e)).
      { rewrite Hr. apply last_snoc. }
      destruct (ends_in_transport_error _ _ _ Hlast He tx_id) as (_ & _ & Hc).
      rewrite Hrep, Hc. destruct k as [|k]; [lia|]. cbn [take].
      now rewrite take_nil.
    + rewrite Hs in Hr. exfalso.
      apply (f_equal length) in Hr. rewrite !length_app in Hr.
      cbn [length] in Hr. lia.
  - intros l Hne Hr Hall. pose proof (handle_photo_summary E w) as Hs.
    destruct (identifier_to_verify E w) as [tx_id|].
    + destruct Hs as [Hreq (k & Hk & Hrep)]. rewrite Hreq in Hr.
      apply app_inv_head in Hr. rewrite <- Hr in Hall.
      destruct (ends_in_clean_failure _ (candidates_attempted E _ _ _) Hall tx_id)
        as (_ & _ & Hc).
      rewrite Hrep, Hc. destruct k as [|k]; [lia|]. cbn [take].
      now rewrite take_nil.
    + rewrite Hs in Hr. exfalso. destruct l; [congruence|].
      apply (f_equal length) in Hr. rewrite !length_app in Hr.
      cbn [length] in Hr. lia.
Qed.

Lemma transport_failure_stops_witness :
  requests (snd (Bot.handle_photo
                   (mock (Ok (Some receipt)) unreachable delivers) fresh))
  = [] ++ [] ++ [(receipt_url "AB01O3", Err RequestException)]
  /\ replies (snd (Bot.handle_photo
                     (mock (Ok (Some receipt)) unreachable delivers) fresh))
     = [MsgProcessing; MsgTransportError].
Proof.
  split; [reflexivity|].
  apply (proj1 (proj2 (proj2 (transport_failure_stops
           (mock (Ok (Some receipt)) unreachable delivers) fresh)))
           [] (receipt_url "AB01O3") RequestException [] eq_refl eq_refl).
Defined.

(** C4 as stated fails: on an identifier with both characters that the
    endpoint rejects thrice, both files make a third attempt, the 0-to-O
    variant of the raw identifier. *)
Lemma both_substitutions_attempted :
  contains (py "O") (py "AB01O3") = true
  /\ contains (py "0") (py "AB01O3") = true
  /\ map fst (requests (snd (Telebirr.verify_telebirr_receipt
                              (mock (Ok None) rejecting delivers) (py "AB01O3")
                              Telebirr.TELEBIRR_VERIFICATION_URL fresh)))
     = [receipt_url "AB01O3"; receipt_url "AB0103"; receipt_url "ABO1O3"]
  /\ map fst (requests (snd (Bot.handle_photo
                              (mock (Ok (Some receipt)) rejecting delivers)
                              fresh)))
     = [receipt_url "AB01O3"; receipt_url "AB0103"; receipt_url "ABO1O3"]
  /\ ~ (length (requests (snd (Telebirr.verify_telebirr_receipt
                                (mock (Ok None) rejecting delivers)
                                (py "AB01O3")
                                Telebirr.TELEBIRR_VERIFICATION_URL fresh)))
        <= 2)%nat.
Proof.
  split; [reflexivity|]. split; [reflexivity|]. split; [reflexivity|].
  split; [reflexivity|]. vm_compute. lia.
Qed.

(** C4, amended: on a raw identifier that holds both an O and a 0, either
    file attempts the raw identifier, after its clean failure the O-to-0
    variant, and after the clean failure of that one the 0-to-O variant of
    the raw identifier: three attempts at most, each with one substitution
    applied to the raw identifier. *)
Theorem both_characters_attempts (E : env) (tx_id : str) (w : world) :
  contains (py "O") tx_id = true -> contains (py "0") tx_id = true ->
  requests (snd (Telebirr.verify_telebirr_receipt E tx_id
                   Telebirr.TELEBIRR_VERIFICATION_URL w))
  = requests w
    ++ up_to_three_attempts E (requests w)
         Telebirr.TELEBIRR_VERIFICATION_URL tx_id
  /\ (identifier_to_verify E w = Some tx_id ->
      requests (snd (Bot.handle_photo E w))
      = requests w ++ up_to_three_attempts E (requests w) Bot.verify_url tx_id).
Proof.
  intros HO H0. split.
  - rewrite verify_telebirr_receipt_eq. cbn [snd after_attempts requests].
    now rewrite up_to_three_attempts_eq.
  - intros Hid. pose proof (handle_photo_summary E w) as Hs.
    rewrite Hid in Hs. destruct Hs as [-> _].
    now rewrite up_to_three_attempts_eq.
Qed.

Lemma both_characters_attempts_witness :
  contains (py "O") (py "AB01O3") = true
  /\ contains (py "0") (py "AB01O3") = true
  /\ identifier_to_verify (mock (Ok (Some receipt)) rejecting delivers) fresh
     = Some (py "AB01O3")
  /\ requests (snd (Bot.handle_photo
                      (mock (Ok (Some receipt)) rejecting delivers) fresh))
     = [(receipt_url "AB01O3", Ok not_found);
        (receipt_url "AB0103", Ok not_found);
        (receipt_url "ABO1O3", Ok not_found)].
Proof.
  split; [reflexivity|]. split; [reflexivity|]. split; [reflexivity|].
  rewrite (proj2 (both_characters_attempts
                    (mock (Ok (Some receipt)) rejecting delivers)
                    (py "AB01O3") fresh eq_refl eq_refl)
             eq_refl).
  reflexivity.
Defined.

(** X21: whenever the photo handler returns, the photo it downloaded is no
    longer on disk. *)
Lemma handle_photo_deletes_on_return E w w' :
  Bot.handle_photo E w = (Ok tt, w') ->
  exists photo_file,
    tg_get_file E = Some photo_file
    /\ py "downloads/" ++ photo_file ++ py ".jpg" ∉ files w'.
Proof.
  rewrite handle_photo_eq. unfold handle_photo_steps.
  destruct (tg_get_file E) as [photo_file|]; [|discriminate].
  intros H. exists photo_file. split; [reflexivity|].
  destruct (tg_download E _); [|discriminate]. cbn [negb] in H.
  destruct (send_all E [MsgProcessing] _) as [[] w2]; [|discriminate].
  destruct (identifier_of E _) as [tx_id|].
  - destruct (caught _); [|discriminate]. now apply finish_deletes in H.
  - now apply finish_deletes in H.
Qed.

(** C8, at a failing input: the receipt is valid and the Telegram client
    fails to deliver the confirmation; the exception escapes the handler and
    the downloaded image stays on disk. *)
Theorem handle_photo_leaves_file_on_error :
  fst (Bot.handle_photo (mock (Ok (Some receipt)) accepting drops_confirmation) fresh)
  = Err TelegramError
  /\ py "downloads/f1.jpg"
     ∈ files (snd (Bot.handle_photo
                     (mock (Ok (Some receipt)) accepting drops_confirmation) fresh)).
Proof. now vm_compute. Qed.

(** ** The examples of the specification *)

Example resolve_example :
  fst (Telebirr.extract_transaction_info
         (py "Paid to shop Transaction Number: AB0123 Total 10.00") fresh)
  = Ok (Some (py "AB0123")).
Proof. reflexivity. Qed.

Example resolve_no_label :
  fst (Telebirr.extract_transaction_info (py "no label here") fresh) = Ok None.
Proof. reflexivity. Qed.

Example two_lines_linearized :
  Telebirr.full_text_of (one_block [["Transaction"; "Number:"]; ["ab01o3"]]%string)
  = py "Transaction Number:" ++ [newline] ++ py "ab01o3" ++ [newline].
Proof. reflexivity. Qed.

Example corrected_on_second_attempt :
  Telebirr.verify_telebirr_receipt (mock (Ok None) accepts_second delivers)
    (py "AB01O3") Telebirr.TELEBIRR_VERIFICATION_URL fresh
  = (Ok true,
     {| files := ∅;
        requests := [(receipt_url "AB01O3", Ok not_found);
                     (receipt_url "AB0103", Ok found)];
        replies := [];
        log := [] |}).
Proof. reflexivity. Qed.

Example verified_at_once :
  Telebirr.verify_telebirr_receipt (mock (Ok None) accepting delivers)
    (py "AB01O3") Telebirr.TELEBIRR_VERIFICATION_URL fresh
  = (Ok true,
     {| files := ∅;
        requests := [(receipt_url "AB01O3", Ok found)];
        replies := [];
        log := [] |}).
Proof. reflexivity. Qed.

Example connection_error_at_once :
  Telebirr.verify_telebirr_receipt (mock (Ok None) unreachable delivers)
    (py "AB01O3") Telebirr.TELEBIRR_VERIFICATION_URL fresh
  = (Ok false,
     {| files := ∅;
        requests := [(receipt_url "AB01O3", Err RequestException)];
        replies := [];
        log := [LogHttpError RequestException] |}).
Proof. reflexivity. Qed.

Example photo_of_a_valid_receipt :
  replies (snd (Bot.handle_photo
                  (mock (Ok (Some receipt)) accepts_second delivers) fresh))
  = [MsgProcessing; MsgValidOto0; MsgViewReceipt (receipt_url "AB0103")].
Proof. reflexivity. Qed.

(** * Further properties of the code *)

(** ** Changing the case of the text *)

Section CaseMap.

Variable f : ascii -> ascii.
Hypothesis f_lower : forall c, lower_char (f c) = lower_char c.
Hypothesis f_upper : forall c, upper_char (f c) = upper_char c.
Hypothesis f_space : forall c, isspace (f c) = isspace c.
Hypothesis f_colon : forall c, Ascii.eqb (f c) ":" = Ascii.eqb c ":".










End CaseMap.




(** X2: the resolver leaves the files, the requests and the replies as they
    are, and logs nothing or the one warning of the caught IndexError; it
    logs the warning only when it returns not-found on a text that holds
    the label. *)
Theorem extract_transaction_info_effect (text : str) (w : world) :
  let w' := snd (Telebirr.extract_transaction_info text w) in
  files w' = files w /\ requests w' = requests w /\ replies w' = replies w
  /\ (log w' = log w
      \/ (log w' = log w ++ [LogExtractError IndexError]
          /\ fst (Telebirr.extract_transaction_info text w) = Ok None
          /\ exists post, after_label Telebirr.label text = Some post)).
Proof.
  rewrite extract_transaction_info_eq. cbn [fst snd].
  unfold only_blank_left, resolve, Telebirr.label.
  destruct (after_label _ text) as [post|]; [|now auto 10].
  destruct (tokens_after post) as [|tok toks].
  - rewrite andb_true_r.
    destruct (truthy _); cbn [logged files requests replies log].
    + repeat split. right. eauto.
    + now auto 10.
  - rewrite andb_false_r. now auto 10.
Qed.

(** X3: the resolver of bot.py returns (Telebirr, identifier, URL template)
    exactly when the resolver of telebirr.py returns that identifier, the
    triple of None when it returns None, and leaves the same state. *)
Theorem extract_transaction_info_agree (text : str) (w : world) :
  Bot.extract_transaction_info text w
  = (match fst (Telebirr.extract_transaction_info text w) with
     | Ok (Some tx_id) =>
         Ok (Some (py "Telebirr"), Some tx_id,
             Some Telebirr.TELEBIRR_VERIFICATION_URL)
     | Ok None => Ok (None, None, None)
     | Err e => Err e
     end,
     snd (Telebirr.extract_transaction_info text w)).
Proof.
  rewrite extract_transaction_info_eq, bot_extract_transaction_info_eq.
  cbn [fst snd]. now destruct (resolve text).
Qed.

(** X4: the extractor of bot.py finds the identifier the extractor of
    telebirr.py finds, returns the triple of None when that one finds none,
    and leaves the same state. *)
Theorem process_image_for_txid_agree (E : env) (image_path : str) (w : world) :
  Bot.process_image_for_txid E image_path w
  = (match fst (Telebirr.process_image_for_txid E image_path w) with
     | Ok (Some tx_id, _) =>
         Ok (Some (py "Telebirr"), Some tx_id,
             Some Telebirr.TELEBIRR_VERIFICATION_URL)
     | Ok (None, _) => Ok (None, None, None)
     | Err e => Err e
     end,
     snd (Telebirr.process_image_for_txid E image_path w)).
Proof.
  rewrite process_image_for_txid_eq, bot_process_image_for_txid_eq.
  cbn [fst snd]. destruct (extracted_text E image_path) as [t|]; [|reflexivity].
  now destruct (resolve t).
Qed.

(** X5: when the OCR text is not blank but does not hold the label, the
    extractor of telebirr.py returns no identifier together with the URL
    template, where the extractor of bot.py returns the triple of None. *)
Theorem process_image_for_txid_url_without_identifier
    (E : env) (image_path : str) (w : world) (d : document) :
  ocr_outcome E image_path = Ok (Some d) ->
  pages d <> [] ->
  truthy (strip (linearize d)) = true ->
  after_label Telebirr.label (linearize d) = None ->
  fst (Telebirr.process_image_for_txid E image_path w)
  = Ok (None, Some Telebirr.TELEBIRR_VERIFICATION_URL)
  /\ fst (Bot.process_image_for_txid E image_path w) = Ok (None, None, None).
Proof.
  intros Ho Hp Ht Hl.
  rewrite process_image_for_txid_eq, bot_process_image_for_txid_eq.
  unfold extracted_text, resolve. rewrite Ho.
  destruct (pages d); [congruence|]. rewrite Ht.
  unfold Telebirr.label in Hl. now rewrite Hl.
Qed.

Lemma process_image_for_txid_url_without_identifier_witness :
  fst (Telebirr.process_image_for_txid
         (mock (Ok (Some (one_block [["Thank"; "you"]]%string))) rejecting delivers)
         (py "downloads/f1.jpg") fresh)
  = Ok (None, Some Telebirr.TELEBIRR_VERIFICATION_URL)
  /\ fst (Bot.process_image_for_txid
            (mock (Ok (Some (one_block [["Thank"; "you"]]%string))) rejecting delivers)
            (py "downloads/f1.jpg") fresh)
     = Ok (None, None, None).
Proof.
  apply (process_image_for_txid_url_without_identifier
           (mock (Ok (Some (one_block [["Thank"; "you"]]%string))) rejecting delivers)
           (py "downloads/f1.jpg") fresh
           (one_block [["Thank"; "you"]]%string));
    [reflexivity | discriminate | reflexivity | reflexivity].
Defined.

(** X6: the extractor leaves the files, the requests and the replies as they
    are; it logs the start of the OCR, then one entry for the outcome, then
    at most the resolver's warning; a failure entry goes with the pair of
    None, the extracted-text entry with the URL template. *)
Theorem process_image_for_txid_effect (E : env) (image_path : str) (w : world) :
  let w' := snd (Telebirr.process_image_for_txid E image_path w) in
  files w' = files w /\ requests w' = requests w /\ replies w' = replies w
  /\ exists outcome rest,
       log w' = log w ++ LogOcrStart image_path :: outcome :: rest
       /\ (rest = [] \/ rest = [LogExtractError IndexError])
       /\ match outcome with
          | LogExtractedText t =>
              exists tx_id,
                fst (Telebirr.process_image_for_txid E image_path w)
                = Ok (tx_id, Some Telebirr.TELEBIRR_VERIFICATION_URL)
          | LogNoPages | LogEmptyText | LogOcrError _ _ =>
              rest = []
              /\ fst (Telebirr.process_image_for_txid E image_path w)
                 = Ok (None, None)
          | _ => False
          end.
Proof.
  rewrite process_image_for_txid_eq. cbn [fst snd].
  unfold extractor_log, extracted_text, gave_up, logged.
  destruct (ocr_outcome E image_path) as [[d|]|e];
    cbn [files requests replies log].
  - destruct (pages d).
    + cbn [files requests replies log]. repeat split.
      exists LogNoPages, []. rewrite <- app_assoc. now auto.
    + destruct (truthy (strip (linearize d))).
      * destruct (only_blank_left (linearize d));
          cbn [files requests replies log]; repeat split.
        -- exists (LogExtractedText (linearize d)), [LogExtractError IndexError].
           rewrite <- !app_assoc. split; [reflexivity|]. split; [now right|eauto].
        -- exists (LogExtractedText (linearize d)), [].
           rewrite <- !app_assoc. split; [reflexivity|]. split; [now left|eauto].
      * cbn [files requests replies log]. repeat split.
        exists LogEmptyText, []. rewrite <- app_assoc. now auto.
  - repeat split. exists LogNoPages, []. rewrite <- app_assoc. now auto.
  - repeat split. exists (LogOcrError image_path e), [].
    rewrite <- app_assoc. now auto.
Qed.

(** ** Linearization, page by page *)

Lemma linearize_pages ps qs :
  linearize {| pages := ps ++ qs |}
  = linearize {| pages := ps |} ++ linearize {| pages := qs |}.
Proof. unfold linearize. cbn [pages]. now rewrite map_app, concat_app. Qed.

(** X7: the text of a document is built page by page: the text of the pages
    [ps ++ qs] is the text of [ps] followed by the text of [qs]. *)
Theorem full_text_of_pages (ps qs : list page) :
  Telebirr.full_text_of {| pages := ps ++ qs |}
  = Telebirr.full_text_of {| pages := ps |}
    ++ Telebirr.full_text_of {| pages := qs |}
  /\ Bot.full_text_of {| pages := ps ++ qs |}
     = Bot.full_text_of {| pages := ps |} ++ Bot.full_text_of {| pages := qs |}.
Proof.
  rewrite ?full_text_of_linearize, ?bot_full_text_of_linearize.
  split; apply linearize_pages.
Qed.

Lemma concat_map_concat {A B} (g : A -> list B) (ls : list (list A)) :
  concat (map g (concat ls)) = concat (map (fun l => concat (map g l)) ls).
Proof.
  induction ls as [|l ls IH]; cbn [concat map]; [reflexivity|].
  now rewrite map_app, concat_app, IH.
Qed.

Lemma linearize_all_lines d : linearize d = concat (map line_text (all_lines d)).
Proof.
  unfold linearize, all_lines. rewrite concat_map_concat, map_map.
  f_equal. apply map_ext. intros p. now rewrite concat_map_concat, map_map.
Qed.

Lemma count_occ_join_space (ws : list str) :
  Forall (fun v => ~ In newline v) ws ->
  count_occ ascii_dec (join (py " ") ws) newline = 0%nat.
Proof.
  induction ws as [|v ws IH]; intros H; [reflexivity|].
  inversion H as [|? ? Hv Hws]; subst. specialize (IH Hws).
  assert (Hv0 : count_occ ascii_dec v newline = 0%nat)
    by now apply count_occ_not_In.
  destruct ws as [|v' ws]; cbn [join]; [exact Hv0|].
  rewrite !count_occ_app, Hv0. cbn [join] in IH. now rewrite IH.
Qed.

Lemma count_occ_line_text (l : line) :
  Forall (fun wd => ~ In newline (value wd)) (words l) ->
  count_occ ascii_dec (line_text l) newline = 1%nat.
Proof.
  intros H. unfold line_text. rewrite count_occ_app, count_occ_join_space.
  - reflexivity.
  - apply Forall_map. exact H.
Qed.

(** X8: when no recognised word holds a line feed, the text holds exactly one
    line feed for each line of the document. *)
Theorem full_text_of_one_line_feed_per_line (d : document) :
  Forall (fun l => Forall (fun wd => ~ In newline (value wd)) (words l))
    (all_lines d) ->
  count_occ ascii_dec (Telebirr.full_text_of d) newline = length (all_lines d).
Proof.
  rewrite full_text_of_linearize, linearize_all_lines.
  induction (all_lines d) as [|l ls IH]; intros H; [reflexivity|].
  inversion H as [|? ? Hl Hls]; subst. cbn [map concat length].
  now rewrite count_occ_app, count_occ_line_text, IH.
Qed.

Lemma full_text_of_one_line_feed_per_line_witness :
  count_occ ascii_dec (Telebirr.full_text_of receipt) newline = 2%nat.
Proof.
  apply (full_text_of_one_line_feed_per_line receipt).
  repeat constructor; cbn; intuition discriminate.
Defined.

(** ** The candidates *)

Lemma contains_char c s : contains [c] s = true <-> In c s.
Proof.
  induction s as [|b s IH]; cbn [contains startswith In].
  - split; [discriminate|tauto].
  - rewrite orb_true_iff, andb_true_r, IH, Ascii.eqb_eq. firstorder.
Qed.

Lemma contains_char_false c s : contains [c] s = false <-> ~ In c s.
Proof. rewrite <- contains_char. now destruct (contains [c] s). Qed.

Lemma replace_char_gone a b s : a <> b -> ~ In a (replace a [b] s).
Proof.
  intros Hab. induction s as [|c s IH]; cbn [replace]; [tauto|].
  destruct (Ascii.eqb c a) eqn:Hc; cbn [app In]; intros [H|H]; auto.
  apply Ascii.eqb_neq in Hc. congruence.
Qed.

Lemma replace_char_put a b s : In a s -> In b (replace a [b] s).
Proof.
  induction s as [|c s IH]; cbn [replace In]; [tauto|].
  intros [->|H].
  - rewrite Ascii.eqb_refl. now left.
  - apply in_or_app. right. auto.
Qed.

Lemma replace_char_id a b s : ~ In a s -> replace a [b] s = s.
Proof.
  induction s as [|c s IH]; cbn [replace In]; [reflexivity|].
  intros H. destruct (Ascii.eqb c a) eqn:Hc.
  - apply Ascii.eqb_eq in Hc. tauto.
  - cbn [app]. f_equal. tauto.
Qed.

Lemma variant_differs a b raw :
  a <> b -> In a raw -> raw <> replace a [b] raw.
Proof.
  intros Hab Hin Heq. apply (replace_char_gone a b raw Hab).
  now rewrite <- Heq.
Qed.

Lemma variants_differ raw :
  In "0"%char raw -> replace "O" (py "0") raw <> replace "0" (py "O") raw.
Proof.
  intros Hin Heq.
  apply (replace_char_gone "O" "0" raw); [discriminate|].
  change [("0")%char] with (py "0"). rewrite Heq.
  now apply (replace_char_put "0" "O").
Qed.

Lemma candidates_NoDup raw : List.NoDup (candidates raw).
Proof.
  unfold candidates.
  destruct (contains (py "O") raw) eqn:Ho, (contains (py "0") raw) eqn:Hz;
    cbn [app];
    try apply (contains_char "O") in Ho; try apply (contains_char "0") in Hz.
  - pose proof (variant_differs "O" "0" raw ltac:(discriminate) Ho).
    pose proof (variant_differs "0" "O" raw ltac:(discriminate) Hz).
    pose proof (variants_differ raw Hz).
    repeat constructor; cbn [In]; intuition.
  - pose proof (variant_differs "O" "0" raw ltac:(discriminate) Ho).
    repeat constructor; cbn [In]; intuition.
  - pose proof (variant_differs "0" "O" raw ltac:(discriminate) Hz).
    repeat constructor; cbn [In]; intuition.
  - repeat constructor; cbn [In]; intuition.
Qed.

Lemma receipt_urls_NoDup raw :
  List.NoDup
    (map (format Telebirr.TELEBIRR_VERIFICATION_URL) (candidates raw)).
Proof.
  rewrite (map_ext _ _ format_receipt_url).
  apply List.NoDup_map_NoDup_ForallPairs; [|apply candidates_NoDup].
  intros x y _ _ H. now apply app_inv_head in H.
Qed.

Lemma candidates_length raw : (1 <= length (candidates raw) <= 3)%nat.
Proof.
  unfold candidates.
  destruct (contains (py "O") raw), (contains (py "0") raw); cbn; lia.
Qed.

(** X9: the candidates of an identifier are pairwise different, and a
    verification run requests no URL twice. *)
Theorem verify_never_repeats_a_url (E : env) (tx_id : str) (w : world) :
  List.NoDup (candidates tx_id)
  /\ exists l,
       requests (snd (Telebirr.verify_telebirr_receipt E tx_id
                        Telebirr.TELEBIRR_VERIFICATION_URL w))
       = requests w ++ l
       /\ List.NoDup (map fst l).
Proof.
  split; [apply candidates_NoDup|].
  rewrite verify_telebirr_receipt_eq. cbn [snd after_attempts requests].
  eexists. split; [reflexivity|].
  destruct (attempts_stop E (requests w)
              (map (format Telebirr.TELEBIRR_VERIFICATION_URL)
                 (candidates tx_id))) as ([rest Hrest] & _).
  pose proof (receipt_urls_NoDup tx_id) as Hn. rewrite Hrest in Hn.
  now apply List.NoDup_app_remove_r in Hn.
Qed.

(** X10: a verification run makes at least one attempt and at most one per
    candidate, hence at most three. *)
Theorem verify_attempt_bounds (E : env) (tx_id : str) (w : world) :
  exists l,
    requests (snd (Telebirr.verify_telebirr_receipt E tx_id
                     Telebirr.TELEBIRR_VERIFICATION_URL w))
    = requests w ++ l
    /\ (1 <= length l <= length (candidates tx_id))%nat
    /\ (length (candidates tx_id) <= 3)%nat.
Proof.
  rewrite verify_telebirr_receipt_eq. cbn [snd after_attempts requests].
  eexists. split; [reflexivity|].
  destruct (attempts_stop E (requests w)
              (map (format Telebirr.TELEBIRR_VERIFICATION_URL)
                 (candidates tx_id))) as ([rest Hrest] & _ & _ & Hne).
  apply (f_equal length) in Hrest.
  rewrite length_app, !length_map in Hrest.
  pose proof (candidates_length tx_id). unfold attempt in *.
  split; [|lia]. split; [|lia].
  destruct (attempts _ _ _); [|cbn; lia].
  exfalso. apply Hne; [|reflexivity]. unfold candidates. discriminate.
Qed.

(** X11: verify_telebirr_receipt leaves the files and the replies as they are
    and never lets a RequestException escape; it logs nothing, except one
    error entry when it returns False after a RequestException. *)
Theorem verify_effect (E : env) (tx_id : str) (w : world) :
  let run := Telebirr.verify_telebirr_receipt E tx_id
               Telebirr.TELEBIRR_VERIFICATION_URL w in
  files (snd run) = files w
  /\ replies (snd run) = replies w
  /\ match fst run with
     | Err e => is_RequestException e = false /\ log (snd run) = log w
     | Ok true => log (snd run) = log w
     | Ok false =>
         log (snd run) = log w
         \/ exists e, is_RequestException e = true
                      /\ log (snd run) = log w ++ [LogHttpError e]
     end.
Proof.
  cbn zeta. rewrite verify_telebirr_receipt_eq.
  cbn [fst snd after_attempts files replies log].
  split; [reflexivity|]. split; [reflexivity|].
  unfold caught, verdict, transport_log.
  destruct (last _) as [[u [r|e]]|].
  - rewrite app_nil_r. destruct (success r); auto.
  - destruct (is_RequestException e) eqn:He.
    + right. eauto.
    + rewrite app_nil_r. auto.
  - rewrite app_nil_r. auto.
Qed.

Lemma misread_replace a b truth raw :
  misread a b truth raw -> ~ In b truth -> replace b [a] raw = truth.
Proof.
  induction 1 as [|t r truth raw Hr _ IH]; cbn [replace In]; [reflexivity|].
  intros Hn. rewrite IH by tauto.
  destruct Hr as [->|[-> ->]].
  - destruct (Ascii.eqb t b) eqn:Hc; [|reflexivity].
    apply Ascii.eqb_eq in Hc. tauto.
  - now rewrite Ascii.eqb_refl.
Qed.

Lemma misread_candidate a b truth raw :
  misread a b truth raw -> ~ In b truth ->
  (In b raw -> replace b [a] raw = truth) /\ (~ In b raw -> raw = truth).
Proof.
  intros Hm Hn. pose proof (misread_replace _ _ _ _ Hm Hn) as Hr.
  split; [auto|]. intros Hb. now rewrite replace_char_id in Hr.
Qed.

Lemma misread_0_as_O_candidate truth raw :
  misread "0" "O" truth raw -> ~ In "O"%char truth -> In truth (candidates raw).
Proof.
  intros Hm Hn. destruct (misread_candidate _ _ _ _ Hm Hn) as [H1 H2].
  unfold candidates. destruct (contains (py "O") raw) eqn:Ho.
  - apply (contains_char "O") in Ho. right. left. now apply H1.
  - left. apply H2. intros Hin. apply (contains_char "O") in Hin.
    change [("O")%char] with (py "O") in Hin. congruence.
Qed.

Lemma misread_O_as_0_candidate truth raw :
  misread "O" "0" truth raw -> ~ In "0"%char truth -> In truth (candidates raw).
Proof.
  intros Hm Hn. destruct (misread_candidate _ _ _ _ Hm Hn) as [H1 H2].
  unfold candidates. destruct (contains (py "0") raw) eqn:Ho.
  - apply (contains_char "0") in Ho. right. apply in_or_app. right.
    left. now apply H1.
  - left. apply H2. intros Hin. apply (contains_char "0") in Hin.
    change [("0")%char] with (py "0") in Hin. congruence.
Qed.

(** An endpoint that accepts one URL only accepts it when the loop reaches
    it. *)
Lemma attempts_reach E url before urls :
  accepts_only E url -> In url urls ->
  exists l r,
    attempts E before urls = l ++ [(url, Ok r)] /\ success r = true.
Proof.
  intros Ha. revert before. induction urls as [|u us IH]; intros before; [easy|].
  intros Hin. rewrite attempts_cons.
  destruct (Ha before u) as (r & Hr & Hs). rewrite Hr. cbn [clean_failure].
  destruct (success r) eqn:Hsr; cbn [negb].
  - exists [], r. rewrite (proj1 Hs eq_refl). now split.
  - destruct Hin as [->|Hin].
    + now pose proof (proj2 Hs eq_refl).
    + destruct (IH (before ++ [(u, Ok r)]) Hin) as (l & r' & -> & Hs').
      exists ((u, Ok r) :: l), r'. now split.
Qed.

Lemma verify_reaches E truth raw w :
  accepts_only E (format Telebirr.TELEBIRR_VERIFICATION_URL truth) ->
  In truth (candidates raw) ->
  fst (Telebirr.verify_telebirr_receipt E raw
         Telebirr.TELEBIRR_VERIFICATION_URL w) = Ok true
  /\ exists l r,
       requests (snd (Telebirr.verify_telebirr_receipt E raw
                        Telebirr.TELEBIRR_VERIFICATION_URL w))
       = requests w ++ l
            ++ [(format Telebirr.TELEBIRR_VERIFICATION_URL truth, Ok r)]
       /\ success r = true.
Proof.
  intros Ha Hin. rewrite verify_telebirr_receipt_eq.
  cbn [fst snd after_attempts requests].
  destruct (attempts_reach E _ (requests w)
              (map (format Telebirr.TELEBIRR_VERIFICATION_URL) (candidates raw))
              Ha (in_map _ _ _ Hin)) as (l & r & -> & Hs).
  split; [|now exists l, r].
  unfold caught, verdict. now rewrite last_snoc, Hs.
Qed.

(** X12: when the endpoint answers every request and accepts the receipt URL
    of one identifier only, and that identifier is among the candidates of
    the raw identifier, the verification returns True and its last attempt
    is that URL, answered with status 200 and the marker. *)
Theorem verify_accepts_the_known_candidate
    (E : env) (truth raw : str) (w : world) :
  accepts_only E (format Telebirr.TELEBIRR_VERIFICATION_URL truth) ->
  In truth (candidates raw) ->
  fst (Telebirr.verify_telebirr_receipt E raw
         Telebirr.TELEBIRR_VERIFICATION_URL w) = Ok true
  /\ exists l r,
       requests (snd (Telebirr.verify_telebirr_receipt E raw
                        Telebirr.TELEBIRR_VERIFICATION_URL w))
       = requests w ++ l
            ++ [(format Telebirr.TELEBIRR_VERIFICATION_URL truth, Ok r)]
       /\ status_code r = 200
       /\ contains Telebirr.SUCCESS_STRING (text r) = true.
Proof.
  intros Ha Hin. destruct (verify_reaches E truth raw w Ha Hin)
    as (Hv & l & r & Hl & Hs).
  split; [exact Hv|]. exists l, r. split; [exact Hl|]. now apply success_iff.
Qed.

Lemma verify_accepts_the_known_candidate_witness :
  fst (Telebirr.verify_telebirr_receipt
         (mock (Ok None) (knows "ABO1O3") delivers) (py "AB01O3")
         Telebirr.TELEBIRR_VERIFICATION_URL fresh) = Ok true.
Proof.
  apply (verify_accepts_the_known_candidate
           (mock (Ok None) (knows "ABO1O3") delivers)
           (py "ABO1O3") (py "AB01O3") fresh).
  - intros before u. cbn [http mock]. unfold knows.
    destruct (decide (u = receipt_url "ABO1O3")) as [->|Hne].
    + exists found. now split.
    + exists not_found. split; [reflexivity|]. split; [discriminate|].
      intros ->. now destruct Hne.
  - cbn. tauto.
Defined.

(** X13: when the OCR read some 0 of an identifier without O as O, or some O
    of an identifier without 0 as 0, the identifier is among the candidates
    of what was read, and an endpoint that accepts it only makes the
    verification return True. *)
Theorem verify_recovers_misread_identifier
    (E : env) (truth raw : str) (w : world) :
  (misread "0" "O" truth raw /\ ~ In "O"%char truth)
  \/ (misread "O" "0" truth raw /\ ~ In "0"%char truth) ->
  accepts_only E (format Telebirr.TELEBIRR_VERIFICATION_URL truth) ->
  In truth (candidates raw)
  /\ fst (Telebirr.verify_telebirr_receipt E raw
            Telebirr.TELEBIRR_VERIFICATION_URL w) = Ok true.
Proof.
  intros Hm Ha.
  assert (Hin : In truth (candidates raw)).
  { destruct Hm as [[Hm Hn]|[Hm Hn]].
    - now apply misread_0_as_O_candidate.
    - now apply misread_O_as_0_candidate. }
  split; [exact Hin|]. exact (proj1 (verify_reaches E truth raw w Ha Hin)).
Qed.

Lemma verify_recovers_misread_identifier_witness :
  fst (Telebirr.verify_telebirr_receipt
         (mock (Ok None) (knows "AB0103") delivers) (py "ABO1O3")
         Telebirr.TELEBIRR_VERIFICATION_URL fresh) = Ok true.
Proof.
  apply (verify_recovers_misread_identifier
           (mock (Ok None) (knows "AB0103") delivers)
           (py "AB0103") (py "ABO1O3") fresh).
  - left. split.
    + unfold misread.
      repeat (constructor; [first [now left | now right]|]). constructor.
    + cbn. intuition discriminate.
  - intros before u. cbn [http mock]. unfold knows.
    destruct (decide (u = receipt_url "AB0103")) as [->|Hne].
    + exists found. now split.
    + exists not_found. split; [reflexivity|]. split; [discriminate|].
      intros ->. now destruct Hne.
Defined.

Lemma send_all_delivered E ms w w' :
  send_all E ms w = (true, w') -> replies w' = replies w ++ ms.
Proof.
  revert w. induction ms as [|m ms IH]; intros w; cbn [send_all].
  - intros [= <-]. now rewrite app_nil_r.
  - destruct (tg_send E (replies w) m); [|discriminate].
    intros H%IH. rewrite H. cbn [replies]. now rewrite <- app_assoc.
Qed.





(** ** The replies of the photo handler *)

Lemma announcement_of_candidate raw i :
  (i < length (candidates raw))%nat ->
  announced raw (nth i (announcements raw) MsgValid)
  = Some (nth i (candidates raw) raw).
Proof.
  unfold candidates, announcements.
  destruct (contains (py "O") raw), (contains (py "0") raw); cbn [app length];
    intros Hi; do 3 (destruct i as [|i]; [reflexivity|]); cbn in Hi; lia.
Qed.

Lemma verdict_true (l : list attempt) :
  caught (verdict l) = Ok true <->
  exists u r, last l = Some (u, Ok r) /\ success r = true.
Proof.
  unfold caught, verdict. destruct (last l) as [[u [r|e]]|].
  - split.
    + intros [= H]. eauto.
    + intros (? & ? & [= <- <-] & ->). reflexivity.
  - split; [destruct (is_RequestException e); discriminate|].
    intros (? & ? & [= ] & _).
  - split; [discriminate|]. intros (? & ? & [= ] & _).
Qed.

(** The URL of the last attempt is the one of the candidate at its place. *)
Lemma last_attempt_url E before (f : str -> str) raw l u a :
  attempts E before (map f (candidates raw)) = l ++ [(u, a)] ->
  (length l < length (candidates raw))%nat
  /\ u = f (nth (length l) (candidates raw) raw).
Proof.
  intros Hl.
  destruct (attempts_stop E before (map f (candidates raw)))
    as ([rest Hrest] & _).
  rewrite Hl, map_app in Hrest. cbn [map fst] in Hrest.
  rewrite <- app_assoc in Hrest. cbn [app] in Hrest.
  assert (Hlen : (length l < length (candidates raw))%nat).
  { apply (f_equal length) in Hrest.
    rewrite length_map, length_app, length_map in Hrest.
    cbn [length] in Hrest. unfold attempt in *. lia. }
  split; [exact Hlen|].
  rewrite <- (map_nth f). rewrite Hrest.
  rewrite app_nth2; rewrite length_map; [|lia].
  now rewrite Nat.sub_diag.
Qed.

(** X15: a success announcement of the photo handler is about the identifier
    that was accepted: the last attempt is the receipt URL of the raw
    identifier, of its O-to-0 variant or of its 0-to-O variant, as the
    announcement says, answered with status 200 and the marker, and the
    link that follows is that URL. *)
Theorem handle_photo_announcement_is_true
    (E : env) (w : world) (tx_id c : str) (m : reply) (rest : list reply) :
  identifier_to_verify E w = Some tx_id ->
  replies (snd (Bot.handle_photo E w))
  = replies w ++ MsgProcessing :: m :: rest ->
  announced tx_id m = Some c ->
  (exists l r,
     requests (snd (Bot.handle_photo E w))
     = requests w ++ l ++ [(format Bot.verify_url c, Ok r)]
     /\ status_code r = 200
     /\ contains Bot.success_string (text r) = true)
  /\ (rest = [] \/ rest = [MsgViewReceipt (format Bot.verify_url c)]).
Proof.
  intros Hid Hrep Hann. pose proof (handle_photo_summary E w) as Hs.
  rewrite Hid in Hs. cbn zeta in Hs.
  remember (attempts E (requests w)
              (map (format Bot.verify_url) (candidates tx_id))) as l eqn:Hl.
  destruct Hs as [Hreq (k & Hk & Hrep')].
  rewrite Hrep' in Hrep. apply app_inv_head in Hrep.
  remember (conclusion tx_id l) as ms eqn:Hms.
  injection Hrep as Hrep. subst ms. unfold conclusion in Hrep.
  destruct (last l) as [[u [r|e]]|] eqn:Hlast.
  - destruct (success r) eqn:Hsr.
    + pose proof Hlast as Hl'. apply last_Some in Hl' as [l' Hl'].
      rewrite Hl' in Hl. symmetry in Hl.
      destruct (last_attempt_url E _ _ _ _ _ _ Hl) as [Hlen Hu].
      rewrite Hl', length_app in Hrep. cbn [length] in Hrep.
      replace (length l' + 1 - 1)%nat with (length l') in Hrep by lia.
      rewrite Hreq, Hl'.
      pose proof (announcement_of_candidate tx_id (length l') Hlen) as Hac.
      remember (nth (length l') (announcements tx_id) MsgValid) as ann
        eqn:Hnth.
      assert (Hc : forall m', m' = ann -> announced tx_id m' = Some c ->
                format Bot.verify_url c = u).
      { intros m' -> Hm'. rewrite Hac in Hm'. rewrite Hu.
        injection Hm' as <-. reflexivity. }
      destruct k as [|[|k]]; [lia| |]; cbn [take] in Hrep;
        injection Hrep as <- <-; rewrite (Hc _ eq_refl Hann).
      * split; [|now left]. exists l', r.
        split; [reflexivity|]. now apply success_iff.
      * split; [|right; now rewrite take_nil].
        exists l', r. split; [reflexivity|]. now apply success_iff.
    + destruct k as [|k]; [lia|]. cbn [take] in Hrep.
      injection Hrep as <- _. discriminate.
  - destruct (is_RequestException e).
    + destruct k as [|k]; [lia|]. cbn [take] in Hrep.
      injection Hrep as <- _. discriminate.
    + now rewrite take_nil in Hrep.
  - now rewrite take_nil in Hrep.
Qed.

Lemma handle_photo_announcement_is_true_witness :
  replies (snd (Bot.handle_photo
                  (mock (Ok (Some receipt)) accepts_second delivers) fresh))
  = [] ++ MsgProcessing :: MsgValidOto0
            :: [MsgViewReceipt (receipt_url "AB0103")]
  /\ exists l r,
       requests (snd (Bot.handle_photo
                        (mock (Ok (Some receipt)) accepts_second delivers)
                        fresh))
       = [] ++ l ++ [(format Bot.verify_url (py "AB0103"), Ok r)]
       /\ status_code r = 200
       /\ contains Bot.success_string (text r) = true.
Proof.
  split; [vm_compute; reflexivity|].
  apply (handle_photo_announcement_is_true
           (mock (Ok (Some receipt)) accepts_second delivers) fresh
           (py "AB01O3") (py "AB0103") MsgValidOto0
           [MsgViewReceipt (receipt_url "AB0103")]);
    vm_compute; reflexivity.
Defined.

Lemma announcement_nth raw i :
  In (nth i (announcements raw) MsgValid)
    [MsgValid; MsgValidOto0; MsgValid0toO].
Proof.
  unfold announcements.
  destruct (contains (py "O") raw), (contains (py "0") raw); cbn [app];
    do 3 (destruct i as [|i]; [cbn; tauto|]); destruct i; cbn; tauto.
Qed.

Lemma conclusion_cases raw (l : list attempt) :
  l <> [] ->
  (caught (verdict l) = Ok true
   /\ exists m u, conclusion raw l = [m; MsgViewReceipt u]
                  /\ In m [MsgValid; MsgValidOto0; MsgValid0toO])
  \/ (caught (verdict l) = Ok false
      /\ (conclusion raw l = [MsgNotVerified]
          \/ conclusion raw l = [MsgTransportError]))
  \/ (exists e, caught (verdict l) = Err e /\ is_RequestException e = false
                /\ exists l' u, l = l' ++ [(u, Err e)]).
Proof.
  intros Hne. unfold caught, verdict, conclusion.
  destruct (last l) as [[u [r|e]]|] eqn:Hlast.
  - destruct (success r).
    + left. split; [reflexivity|]. eexists _, _.
      split; [reflexivity|apply announcement_nth].
    + right. left. auto.
  - destruct (is_RequestException e) eqn:He.
    + right. left. auto.
    + right. right. exists e. split; [reflexivity|]. split; [exact He|].
      apply last_Some in Hlast as [l' Hl']. now exists l', u.
  - now apply last_None in Hlast.
Qed.

(** X14: on the identifier it goes on to verify, the photo handler makes the
    attempts verify_telebirr_receipt makes, and announces a valid receipt
    exactly when that function returns True. *)
Theorem handle_photo_agrees_with_verify (E : env) (w : world) (tx_id : str) :
  identifier_to_verify E w = Some tx_id ->
  requests (snd (Bot.handle_photo E w))
  = requests (snd (Telebirr.verify_telebirr_receipt E tx_id
                     Telebirr.TELEBIRR_VERIFICATION_URL w))
  /\ (fst (Telebirr.verify_telebirr_receipt E tx_id
             Telebirr.TELEBIRR_VERIFICATION_URL w) = Ok true
      <-> exists m rest,
            replies (snd (Bot.handle_photo E w))
            = replies w ++ MsgProcessing :: m :: rest
            /\ In m [MsgValid; MsgValidOto0; MsgValid0toO]).
Proof.
  intros Hid. pose proof (handle_photo_summary E w) as Hs.
  rewrite Hid in Hs. cbn zeta in Hs. rewrite verify_telebirr_receipt_eq.
  cbn [fst snd after_attempts requests].
  change Bot.verify_url with Telebirr.TELEBIRR_VERIFICATION_URL in Hs.
  remember (attempts E (requests w)
              (map (format Telebirr.TELEBIRR_VERIFICATION_URL)
                 (candidates tx_id))) as l eqn:Hl.
  destruct Hs as [Hreq (k & Hk & Hrep)]. split; [exact Hreq|].
  assert (Hne : l <> []) by (subst l; apply candidates_attempted).
  rewrite Hrep.
  destruct (conclusion_cases tx_id l Hne)
    as [(Hv & m & u & Hc & Hm)|[(Hv & Hc)|(e & Hv & He & _)]]; rewrite Hv.
  - split; [intros _|reflexivity]. rewrite Hc.
    destruct k as [|k]; [lia|]. cbn [take]. eauto.
  - split; [discriminate|]. intros (m & rest & Heq%app_inv_head & Hm).
    destruct k as [|k]; [lia|].
    destruct Hc as [Hc|Hc]; rewrite Hc in Heq; cbn [take] in Heq;
      injection Heq as <- _; cbn in Hm; intuition discriminate.
  - split; [discriminate|]. intros (m & rest & Heq%app_inv_head & Hm).
    rewrite (conclusion_of_exception _ _ _ Hv), take_nil in Heq.
    discriminate.
Qed.

Lemma handle_photo_agrees_with_verify_witness :
  requests (snd (Bot.handle_photo
                   (mock (Ok (Some receipt)) accepts_second delivers) fresh))
  = requests (snd (Telebirr.verify_telebirr_receipt
                     (mock (Ok (Some receipt)) accepts_second delivers)
                     (py "AB01O3") Telebirr.TELEBIRR_VERIFICATION_URL fresh)).
Proof.
  apply (handle_photo_agrees_with_verify
           (mock (Ok (Some receipt)) accepts_second delivers) fresh
           (py "AB01O3")).
  vm_compute. reflexivity.
Defined.

(** X16: when the photo handler returns, it has replied with the
    acknowledgement and exactly one conclusion: no identifier, not
    verified, try again later, or a success announcement with its link. *)
Theorem handle_photo_one_conclusion (E : env) (w w' : world) :
  Bot.handle_photo E w = (Ok tt, w') ->
  exists c,
    replies w' = replies w ++ MsgProcessing :: c
    /\ (c = [MsgNoTransactionId]
        \/ c = [MsgNotVerified]
        \/ c = [MsgTransportError]
        \/ exists m u,
             c = [m; MsgViewReceipt u]
             /\ In m [MsgValid; MsgValidOto0; MsgValid0toO]).
Proof.
  rewrite handle_photo_eq. unfold handle_photo_steps.
  destruct (tg_get_file E) as [photo_file|]; [|discriminate].
  destruct (tg_download E _); [|discriminate].
  cbn [negb send_all files requests replies log].
  destruct (tg_send E (replies w) MsgProcessing); [|discriminate].
  set (w2 := {| files := _ |}).
  destruct (extractor_log_frame E (py "downloads/" ++ photo_file ++ py ".jpg") w2)
    as (_ & Hr3 & Hp3).
  cbn [w2 requests replies] in Hr3, Hp3.
  unfold finish.
  destruct (identifier_of E _) as [tx_id|].
  - set (l := attempts E _ _).
    assert (Hne : l <> []) by apply candidates_attempted.
    destruct (conclusion_cases tx_id l Hne)
      as [(Hv & m & u & Hc & Hm)|[(Hv & Hc)|(e & Hv & He & _)]]; rewrite Hv;
      [| |discriminate].
    + destruct (send_all E _ _) as [[] w5] eqn:Hsend; [|discriminate].
      intros [= <-]. cbn [replies]. apply send_all_delivered in Hsend.
      rewrite Hsend. cbn [after_attempts replies]. rewrite Hp3, <- app_assoc.
      exists (conclusion tx_id l). split; [reflexivity|].
      rewrite Hc. right. right. right. eauto.
    + destruct (send_all E _ _) as [[] w5] eqn:Hsend; [|discriminate].
      intros [= <-]. cbn [replies]. apply send_all_delivered in Hsend.
      rewrite Hsend. cbn [after_attempts replies]. rewrite Hp3, <- app_assoc.
      exists (conclusion tx_id l). split; [reflexivity|].
      destruct Hc as [-> | ->]; auto.
  - destruct (send_all E _ _) as [[] w5] eqn:Hsend; [|discriminate].
    intros [= <-]. cbn [replies]. apply send_all_delivered in Hsend.
    rewrite Hsend, Hp3, <- app_assoc. eauto.
Qed.

Lemma handle_photo_one_conclusion_witness :
  exists c,
    replies (snd (Bot.handle_photo
                    (mock (Ok (Some receipt)) rejecting delivers) fresh))
    = replies fresh ++ MsgProcessing :: c
    /\ (c = [MsgNoTransactionId]
        \/ c = [MsgNotVerified]
        \/ c = [MsgTransportError]
        \/ exists m u,
             c = [m; MsgViewReceipt u]
             /\ In m [MsgValid; MsgValidOto0; MsgValid0toO]).
Proof.
  apply (handle_photo_one_conclusion
           (mock (Ok (Some receipt)) rejecting delivers) fresh
           (snd (Bot.handle_photo
                   (mock (Ok (Some receipt)) rejecting delivers) fresh))).
  vm_compute. reflexivity.
Defined.


Lemma identifier_of_ocr_failed E p :
  ocr_failed E p = true -> identifier_of E p = None.
Proof.
  unfold ocr_failed, identifier_of, extracted_text.
  destruct (ocr_outcome E p) as [[d|]|e]; try reflexivity.
  destruct (pages d); [reflexivity|].
  intros H. now rewrite (strip_blank _ H).
Qed.

(** X19: when the OCR fails on the photo the handler makes no request at all,
    and replies at most with the acknowledgement and the no-identifier
    message. *)
Theorem handle_photo_without_identifier (E : env) (w : world) :
  (forall photo_file,
     tg_get_file E = Some photo_file ->
     ocr_failed E (photo_path photo_file) = true) ->
  requests (snd (Bot.handle_photo E w)) = requests w
  /\ exists k,
       replies (snd (Bot.handle_photo E w))
       = replies w ++ take k [MsgProcessing; MsgNoTransactionId].
Proof.
  intros Hocr. rewrite handle_photo_eq. unfold handle_photo_steps.
  destruct (tg_get_file E) as [photo_file|];
    [|split; [reflexivity|exists 0%nat; now rewrite app_nil_r]].
  specialize (Hocr photo_file eq_refl). fold (photo_path photo_file).
  destruct (tg_download E _);
    [|split; [reflexivity|exists 0%nat; now rewrite app_nil_r]].
  cbn [negb send_all files requests replies log].
  destruct (tg_send E (replies w) MsgProcessing);
    [|split; [reflexivity|now exists 1%nat]].
  set (w2 := {| files := _ |}).
  destruct (extractor_log_frame E (photo_path photo_file) w2)
    as (_ & Hr3 & Hp3).
  cbn [w2 requests replies] in Hr3, Hp3.
  rewrite (identifier_of_ocr_failed _ _ Hocr).
  destruct (finish_frame E (photo_path photo_file) [MsgNoTransactionId]
              (extractor_log E (photo_path photo_file) w2)) as (-> & _ & ->).
  split; [exact Hr3|]. exists 2%nat. cbn [send_all take].
  destruct (tg_send E _ _); cbn [snd replies]; now rewrite Hp3, <- app_assoc.
Qed.

Lemma handle_photo_without_identifier_witness :
  requests (snd (Bot.handle_photo
                   (mock (Err RuntimeError) accepting delivers) fresh))
  = []
  /\ exists k,
       replies (snd (Bot.handle_photo
                       (mock (Err RuntimeError) accepting delivers) fresh))
       = [] ++ take k [MsgProcessing; MsgNoTransactionId].
Proof.
  apply (handle_photo_without_identifier
           (mock (Err RuntimeError) accepting delivers) fresh).
  intros photo_file _. reflexivity.
Defined.

Lemma handle_photo_deletes_on_return_witness :
  exists photo_file,
    tg_get_file (mock (Ok (Some receipt)) accepting delivers) = Some photo_file
    /\ py "downloads/" ++ photo_file ++ py ".jpg"
       ∉ files (snd (Bot.handle_photo
                       (mock (Ok (Some receipt)) accepting delivers) fresh)).
Proof.
  apply (handle_photo_deletes_on_return
           (mock (Ok (Some receipt)) accepting delivers) fresh
           (snd (Bot.handle_photo
                   (mock (Ok (Some receipt)) accepting delivers) fresh))).
  vm_compute. reflexivity.
Defined.

(** ** The URLs the handler requests *)

Lemma In_replace_char x a b s : In x (replace a [b] s) -> In x s \/ x = b.
Proof.
  induction s as [|c s IH]; cbn [replace In]; [tauto|].
  destruct (Ascii.eqb c a); cbn [app In]; intuition.
Qed.

Lemma replace_char_nonempty a b s : s <> [] -> replace a [b] s <> [].
Proof.
  destruct s as [|c s]; [congruence|]. intros _. cbn [replace].
  now destruct (Ascii.eqb c a).
Qed.

Lemma resolve_well_formed text tx_id :
  resolve text = Some tx_id -> well_formed tx_id.
Proof.
  unfold resolve. destruct (after_label _ text) as [post|]; [|discriminate].
  destruct (tokens_after post) as [|tok toks] eqn:Ht; [discriminate|].
  intros [= <-]. destruct (token_shape _ _ _ Ht) as (Hne & Hsp & Hco & _).
  split; [exact Hne|]. intros x Hx. split.
  - rewrite forallb_forall in Hsp. specialize (Hsp x Hx).
    now apply negb_true_iff in Hsp.
  - intros ->. exact (Hco Hx).
Qed.

Lemma candidates_well_formed raw c :
  well_formed raw -> In c (candidates raw) -> well_formed c.
Proof.
  intros [Hne Hall] Hin.
  assert (Hrep : forall a b, isspace b = false -> b <> ":"%char ->
            well_formed (replace a [b] raw)).
  { intros a b Hb1 Hb2. split; [now apply replace_char_nonempty|].
    intros x [Hx| ->]%In_replace_char; auto. }
  unfold candidates in Hin.
  destruct (contains (py "O") raw), (contains (py "0") raw);
    cbn [app In] in Hin;
    repeat (destruct Hin as [<-|Hin];
            [first [ now split
                   | apply (Hrep "O" "0")%char; [reflexivity|discriminate]
                   | apply (Hrep "0" "O")%char; [reflexivity|discriminate] ]|]);
    destruct Hin.
Qed.

(** X20: every URL the photo handler requests is the receipt prefix followed
    by an identifier that is not empty and holds neither white space nor a
    colon. *)
Theorem handle_photo_requests_well_formed_urls
    (E : env) (w : world) (l1 l2 : list attempt) (u : str)
    (a : result response) :
  requests (snd (Bot.handle_photo E w)) = requests w ++ l1 ++ (u, a) :: l2 ->
  exists c,
    u = py "https://transactioninfo.ethiotelecom.et/receipt/" ++ c
    /\ c <> []
    /\ forall x, In x c -> isspace x = false /\ x <> ":"%char.
Proof.
  intros Hreq. pose proof (handle_photo_summary E w) as Hs.
  unfold identifier_to_verify in Hs.
  destruct (tg_get_file E) as [photo_file|];
    [|rewrite Hs in Hreq; apply (f_equal length) in Hreq;
      rewrite !length_app in Hreq; cbn in Hreq; lia].
  destruct (tg_download E _ && tg_send E _ _);
    [|rewrite Hs in Hreq; apply (f_equal length) in Hreq;
      rewrite !length_app in Hreq; cbn in Hreq; lia].
  unfold identifier_of in Hs.
  destruct (extracted_text E _) as [full_text|];
    [|rewrite Hs in Hreq; apply (f_equal length) in Hreq;
      rewrite !length_app in Hreq; cbn in Hreq; lia].
  destruct (resolve full_text) as [tx_id|] eqn:Hres;
    [|rewrite Hs in Hreq; apply (f_equal length) in Hreq;
      rewrite !length_app in Hreq; cbn in Hreq; lia].
  destruct Hs as [Hs _]. rewrite Hs in Hreq. apply app_inv_head in Hreq.
  destruct (attempts_stop E (requests w)
              (map (format Bot.verify_url) (candidates tx_id)))
    as ([rest Hrest] & _).
  assert (Hu : In u (map (format Bot.verify_url) (candidates tx_id))).
  { rewrite Hrest, Hreq, map_app. cbn [map fst].
    apply in_or_app. left. apply in_or_app. right. now left. }
  apply in_map_iff in Hu as (c & <- & Hc). exists c.
  split; [apply format_receipt_url|].
  apply (candidates_well_formed tx_id c); [|exact Hc].
  now apply (resolve_well_formed full_text).
Qed.

Lemma handle_photo_requests_well_formed_urls_witness :
  exists c,
    receipt_url "AB0103"
    = py "https://transactioninfo.ethiotelecom.et/receipt/" ++ c
    /\ c <> []
    /\ forall x, In x c -> isspace x = false /\ x <> ":"%char.
Proof.
  apply (handle_photo_requests_well_formed_urls
           (mock (Ok (Some receipt)) accepts_second delivers) fresh
           [(receipt_url "AB01O3", Ok not_found)] []
           (receipt_url "AB0103") (Ok found)).
  vm_compute. reflexivity.
Defined.
